(** * tide-torah: the calendrical and astronomical core, and its handlers

    A shallow embedding of
      - [app/utils/hebrew_date.py]   (HebrewDateCalculator),
      - [app/utils/astronomy.py]     (AstronomyCalculator),
      - [app/api/v1/endpoints/torah.py] and [prayer.py] (the date handlers),
    together with the part of Python the code leans on: exceptions,
    dictionaries, list indexing, [int()] on floats, and the arithmetic of
    [datetime].

    Conventions.
      - A Python call that may raise returns [result A]; [try/except] is a
        [match] on it.
      - A Python [dict] literal is an association list in insertion order.
      - A Python [float] is a rational [Q] (every finite float is one).
      - A list index is converted to the machine word of a 64-bit build.
      - The third-party libraries (pytz, hebrewcal, ephem, astral) are
        interfaces: type classes whose methods the theorems quantify over. *)

From Stdlib Require Import ZArith QArith Qround List String Ascii Bool Lia Lqa.
From Stdlib Require Import DecimalString.
Import ListNotations.

Open Scope Z_scope.

(* ================================================================== *)
(** * Python values *)
(* ================================================================== *)

(** The exception classes the code can meet.  All of them derive from
    [Exception]; only [ValueError] is caught by class in the handlers. *)
Inductive exn_class : Type :=
| ValueError
| TypeError
| IndexError
| KeyError
| AttributeError
| LibraryError.

Record exn : Type := Exn { exn_kind : exn_class; exn_msg : string }.

Inductive result (A : Type) : Type :=
| Ok (a : A)
| Raise (e : exn).

Arguments Ok {A} a.
Arguments Raise {A} e.

Definition bind {A B : Type} (r : result A) (k : A -> result B) : result B :=
  match r with
  | Ok a => k a
  | Raise e => Raise e
  end.

Notation "x <- r ;; k" := (bind r (fun x => k))
  (at level 61, r at next level, right associativity).

Definition is_value_error (e : exn) : bool :=
  match exn_kind e with
  | ValueError => true
  | _ => false
  end.

(** JSON-like Python values: what the handlers return. *)
#[local] Set Warnings "-register-all".
Inductive json : Type :=
| JNull
| JBool (b : bool)
| JInt (z : Z)
| JFloat (q : Q)
| JStr (s : string)
| JList (l : list json)
| JDict (d : list (string * json)).
#[local] Set Warnings "register-all".

Definition dict : Type := list (string * json).

(** [d.get(k)] / [d[k]] on a dictionary literal. *)
Fixpoint dict_get (d : dict) (k : string) : option json :=
  match d with
  | [] => None
  | (k', v) :: d' => if String.eqb k' k then Some v else dict_get d' k
  end.

(** [k in d]. *)
Definition dict_mem (d : dict) (k : string) : bool :=
  match dict_get d k with
  | Some _ => true
  | None => false
  end.

(** ["error" in body]: how callers recognise an error-shaped result. *)
Definition error_shaped (body : json) : bool :=
  match body with
  | JDict d => dict_mem d "error"
  | _ => false
  end.

(** [{"error": str(e)}] *)
Definition error_body (msg : string) : json := JDict [("error"%string, JStr msg)].

(** [sys.maxsize] of a 64-bit build: an index is first converted to a
    machine word ([Py_ssize_t]), which holds [-ssize_max - 1 .. ssize_max]. *)
Definition ssize_max : Z := 9223372036854775807.

(** Whether the integer [i] fits the machine word of an index. *)
Definition fits_index (i : Z) : bool :=
  (- ssize_max - 1 <=? i) && (i <=? ssize_max).

(** [l[i]] on a Python list.  The index is converted to a machine word
    first: an integer that does not fit raises [IndexError] with the
    message of the conversion.  Then a negative index counts from the end,
    and an index out of range raises [IndexError]. *)
Definition py_index {A : Type} (l : list A) (i : Z) : result A :=
  if negb (fits_index i) then
    Raise (Exn IndexError "cannot fit 'int' into an index-sized integer")
  else
  let n := Z.of_nat (List.length l) in
  let j := if i <? 0 then i + n else i in
  if (0 <=? j) && (j <? n) then
    match nth_error l (Z.to_nat j) with
    | Some a => Ok a
    | None => Raise (Exn IndexError "list index out of range")
    end
  else Raise (Exn IndexError "list index out of range").

(** [int(x)] on a float: truncation toward zero. *)
Definition py_int (x : Q) : Z := Z.quot (Qnum x) (Zpos (Qden x)).

(** [d[k] = v]: the value of a key that is there is replaced where it
    stands, a new key goes to the end. *)
Fixpoint dict_set (d : dict) (k : string) (v : json) : dict :=
  match d with
  | [] => [(k, v)]
  | (k', v') :: d' =>
      if String.eqb k' k then (k', v) :: d' else (k', v') :: dict_set d' k v
  end.

(** [type(v).__name__] *)
Definition type_name (v : json) : string :=
  match v with
  | JNull => "NoneType"
  | JBool _ => "bool"
  | JInt _ => "int"
  | JFloat _ => "float"
  | JStr _ => "str"
  | JList _ => "list"
  | JDict _ => "dict"
  end.

(** [v.get(k, default)]: only a dictionary has the method. *)
Definition py_get (v : json) (k : string) (default : json) : result json :=
  match v with
  | JDict d =>
      Ok (match dict_get d k with
          | Some x => x
          | None => default
          end)
  | _ =>
      Raise (Exn AttributeError
               ("'" ++ type_name v ++ "' object has no attribute 'get'"))
  end.

(** [s.lower()] on Latin-1 text: A to Z, and the accented capitals 192 to 222
    but the multiplication sign, move up by 32. *)
Definition ascii_lower (c : ascii) : ascii :=
  let n := nat_of_ascii c in
  if ((65 <=? n) && (n <=? 90))%nat
     || ((192 <=? n) && (n <=? 222) && negb (n =? 215))%nat
  then ascii_of_nat (n + 32)
  else c.

Fixpoint str_lower (s : string) : string :=
  match s with
  | EmptyString => EmptyString
  | String c r => String (ascii_lower c) (str_lower r)
  end.

(** Decimal digits, for [strftime]. *)
Definition digit_char (n : Z) : ascii := ascii_of_nat (48 + Z.to_nat (n mod 10)).

Definition pad2 (n : Z) : string :=
  String (digit_char (n / 10)) (String (digit_char n) EmptyString).

Definition pad4 (n : Z) : string :=
  String (digit_char (n / 1000)) (String (digit_char (n / 100)) (pad2 n)).

(* ================================================================== *)
(** * The [datetime] module *)
(* ================================================================== *)

Module PyDatetime.

(** A [tzinfo] as pytz hands it out: a zone name and the UTC offset, in
    seconds, that applies to the instant it is attached to. *)
Record tz : Type := Tz { tzname : string; utcoffset : Z }.

(** A [datetime]: naive when [tzinfo] is [None], aware otherwise. *)
Record datetime : Type := Datetime {
  year : Z;
  month : Z;
  day : Z;
  hour : Z;
  minute : Z;
  second : Z;
  microsecond : Z;
  tzinfo : option tz
}.

Record timedelta : Type := Timedelta {
  days : Z;
  seconds : Z;
  microseconds : Z
}.

Definition _is_leap (y : Z) : bool :=
  (y mod 4 =? 0) && (negb (y mod 100 =? 0) || (y mod 400 =? 0)).

Definition _days_before_year (y : Z) : Z :=
  let p := y - 1 in p * 365 + p / 4 - p / 100 + p / 400.

Definition _days_in_month (y m : Z) : Z :=
  if (m =? 2) && _is_leap y then 29
  else nth (Z.to_nat m) [0; 31; 28; 31; 30; 31; 30; 31; 31; 30; 31; 30; 31] 0.

Definition _days_before_month (y m : Z) : Z :=
  nth (Z.to_nat m) [0; 0; 31; 59; 90; 120; 151; 181; 212; 243; 273; 304; 334] 0
  + (if (2 <? m) && _is_leap y then 1 else 0).

(** The proleptic Gregorian ordinal: 1 January of year 1 is day 1. *)
Definition _ymd2ord (y m d : Z) : Z :=
  _days_before_year y + _days_before_month y m + d.

Definition valid_date (y m d : Z) : bool :=
  (1 <=? y) && (y <=? 9999) && (1 <=? m) && (m <=? 12)
  && (1 <=? d) && (d <=? _days_in_month y m).

(** [datetime(y, m, d)]: a naive midnight, [ValueError] on a date that does
    not exist. *)
Definition datetime_new (y m d : Z) : result datetime :=
  if valid_date y m d then Ok (Datetime y m d 0 0 0 0 None)
  else Raise (Exn ValueError "date value out of range").

Definition day_micros : Z := 86400 * 1000000.

(** Microseconds of the wall clock since the start of ordinal day 0. *)
Definition wall_micros (t : datetime) : Z :=
  ((_ymd2ord (year t) (month t) (day t) * 86400
    + hour t * 3600 + minute t * 60 + second t) * 1000000)
  + microsecond t.

(** A [timedelta] is kept normalised: [0 <= seconds < 86400] and
    [0 <= microseconds < 10^6], so [days] is the floor of the difference. *)
Definition timedelta_of_micros (u : Z) : timedelta :=
  Timedelta (u / day_micros) ((u mod day_micros) / 1000000) (u mod 1000000).

(** [a - b].  Mixing a naive and an aware operand raises [TypeError]. *)
Definition sub (a b : datetime) : result timedelta :=
  match tzinfo a, tzinfo b with
  | None, None => Ok (timedelta_of_micros (wall_micros a - wall_micros b))
  | Some za, Some zb =>
      Ok (timedelta_of_micros
            ((wall_micros a - utcoffset za * 1000000)
             - (wall_micros b - utcoffset zb * 1000000)))
  | _, _ =>
      Raise (Exn TypeError "can't subtract offset-naive and offset-aware datetimes")
  end.

(** [t.strftime("%Y-%m-%d")], [("%Y/%m/%d")] and [("%H:%M")].  The year is
    written with four digits, as the library documents [%Y].  The text comes
    from the C library of the platform: for the years 1000 to 9999 it is
    these four digits everywhere, for earlier years glibc leaves the leading
    zeros out.  What is stated about the digits of a written year is
    therefore stated for the years from 1000 on. *)
Definition strftime_Ymd (t : datetime) : string :=
  (pad4 (year t) ++ "-" ++ pad2 (month t) ++ "-" ++ pad2 (day t))%string.

Definition strftime_Ymd_slash (t : datetime) : string :=
  (pad4 (year t) ++ "/" ++ pad2 (month t) ++ "/" ++ pad2 (day t))%string.

Definition strftime_HM (t : datetime) : string :=
  (pad2 (hour t) ++ ":" ++ pad2 (minute t))%string.

(** ** [datetime.strptime(s, "%Y-%m-%d")]

    The format compiles to the regular expression
    [(\d\d\d\d)-(1[0-2]|0[1-9]|[1-9])-(3[01]|[12]\d|0[1-9]|[1-9]| [1-9])],
    matched at the start of the string; the match has to reach the end of
    the string, and the date it names has to exist.  Characters are Latin-1,
    where the digits are 0 to 9. *)

Definition is_digit (c : ascii) : bool :=
  let n := nat_of_ascii c in (48 <=? n)%nat && (n <=? 57)%nat.

Definition digit_val (c : ascii) : Z := Z.of_nat (nat_of_ascii c) - 48.

Definition in_range (lo hi : Z) (c : ascii) : bool :=
  is_digit c && (lo <=? digit_val c) && (digit_val c <=? hi).

Definition is_char (x c : ascii) : bool := Ascii.eqb x c.

(** Each directive lists its matches in the order the alternation tries
    them, each with the text left over. *)
Definition match_Y (s : string) : list (Z * string) :=
  match s with
  | String a (String b (String c (String d r))) =>
      if is_digit a && is_digit b && is_digit c && is_digit d
      then [(digit_val a * 1000 + digit_val b * 100 + digit_val c * 10 + digit_val d, r)]
      else []
  | _ => []
  end.

Definition match_m (s : string) : list (Z * string) :=
  match s with
  | String a r =>
      (match r with
       | String b r' =>
           (if is_char "1" a && in_range 0 2 b then [(10 + digit_val b, r')] else [])
           ++ (if is_char "0" a && in_range 1 9 b then [(digit_val b, r')] else [])
       | EmptyString => []
       end)
      ++ (if in_range 1 9 a then [(digit_val a, r)] else [])
  | EmptyString => []
  end.

Definition match_d (s : string) : list (Z * string) :=
  match s with
  | String a r =>
      (match r with
       | String b r' =>
           (if is_char "3" a && in_range 0 1 b then [(30 + digit_val b, r')] else [])
           ++ (if in_range 1 2 a && is_digit b
               then [(digit_val a * 10 + digit_val b, r')] else [])
           ++ (if is_char "0" a && in_range 1 9 b then [(digit_val b, r')] else [])
       | EmptyString => []
       end)
      ++ (if in_range 1 9 a then [(digit_val a, r)] else [])
      ++ (match r with
          | String b r' =>
              if is_char " " a && in_range 1 9 b then [(digit_val b, r')] else []
          | EmptyString => []
          end)
  | EmptyString => []
  end.

Definition match_lit (x : ascii) (s : string) : list string :=
  match s with
  | String a r => if is_char x a then [r] else []
  | EmptyString => []
  end.

(** The first match, in the order a backtracking matcher finds it, with
    the text it leaves unread. *)
Definition regex_Ymd (s : string) : option (Z * Z * Z * string) :=
  hd_error
    (flat_map (fun '(y, s1) =>
       flat_map (fun s2 =>
         flat_map (fun '(m, s3) =>
           flat_map (fun s4 =>
             map (fun '(d, s5) => (y, m, d, s5)) (match_d s4))
             (match_lit "-" s3)) (match_m s2))
         (match_lit "-" s1)) (match_Y s)).

Definition strptime_Ymd (s : string) : result datetime :=
  match regex_Ymd s with
  | Some (y, m, d, EmptyString) => datetime_new y m d
  | Some (_, rest) =>
      Raise (Exn ValueError ("unconverted data remains: " ++ rest))
  | None =>
      Raise (Exn ValueError
               ("time data '" ++ s ++ "' does not match format '%Y-%m-%d'"))
  end.

End PyDatetime.

Import PyDatetime.

(* ================================================================== *)
(** * The time-bounded cache ([cachetools.TTLCache]) *)
(* ================================================================== *)

Module TTLCache.

(** Modelled from the spec: the calculators keep their results in a
    [cachetools.TTLCache], whose code is not part of the repository.  An
    entry holds the key, the computed result and its insertion timestamp. *)
Record entry : Type := Entry { key : string; value : json; inserted : Z }.

(** Modelled from the spec: a cache is configured with [maxSize] and
    [ttlSeconds]; the store is kept in insertion order, oldest first. *)
Record t : Type := Cache { maxsize : nat; ttl : Z; store : list entry }.

(** Modelled from the spec: a cache is lazily populated, so it starts empty. *)
Definition empty (maxsize : nat) (ttl : Z) : t := Cache maxsize ttl [].

(** Modelled from the spec: the number of entries physically stored. *)
Definition size (c : t) : nat := List.length (store c).

(** Modelled from the spec: the entry stored under a key, if any. *)
Definition lookup (k : string) (s : list entry) : option entry :=
  find (fun e => String.eqb (key e) k) s.

(** Modelled from the spec: an entry is live while its age is below
    [ttlSeconds]; at age [>= ttlSeconds] it is treated as absent. *)
Definition live (ttl now : Z) (e : entry) : bool := now - inserted e <? ttl.

(** Modelled from the spec: [get(key) -> value or absent]; an entry is absent
    if its age [>= ttlSeconds] even if still physically stored. *)
Definition get (c : t) (now : Z) (k : string) : option json :=
  match lookup k (store c) with
  | Some e => if live (ttl c) now e then Some (value e) else None
  | None => None
  end.

(** Modelled from the spec: [key in cache], the presence test of [get]. *)
Definition contains (c : t) (now : Z) (k : string) : bool :=
  match get c now k with
  | Some _ => true
  | None => false
  end.

(** Modelled from the spec: [cache[key]], [get] as a subscript: an absent key
    raises [KeyError]. *)
Definition getitem (c : t) (now : Z) (k : string) : result json :=
  match get c now k with
  | Some v => Ok v
  | None => Raise (Exn KeyError k)
  end.

(** Modelled from the spec: eviction (b), the store exceeds the maximum size
    and the oldest entries go first. *)
Definition trim (maxsize : nat) (s : list entry) : list entry :=
  skipn (List.length s - maxsize) s.

(** Modelled from the spec: [put(key, value)].  Entries whose age has reached
    the TTL are evicted (a), the new entry replaces any entry of the same key
    and becomes the newest, and the store is cut back to [maxSize] (b). *)
Definition put (c : t) (now : Z) (k : string) (v : json) : t :=
  let fresh := filter (live (ttl c) now) (store c) in
  let others := filter (fun e => negb (String.eqb (key e) k)) fresh in
  Cache (maxsize c) (ttl c) (trim (maxsize c) (others ++ [Entry k v now])).

End TTLCache.

(* ================================================================== *)
(** * The libraries behind the calculators *)
(* ================================================================== *)

(** The two clocks a call reads, each once: the timer of the cache and
    [datetime.now()]. *)
Record clock : Type := Clock { monotonic : Z; wall : datetime }.

(** [str(x)] of a float. *)
Class FloatRepr : Type := { float_str : Q -> string }.

(** pytz: the wall clock of an instant in a zone, and the zone's UTC offset
    (in seconds) at that instant. *)
Class Pytz : Type := {
  tz_wall : string -> datetime -> result datetime;
  tz_offset : string -> datetime -> Z
}.

(** [t.astimezone(tz)]: the same instant, as an aware datetime whose
    [tzinfo] is [tz]. *)
Definition astimezone `{Pytz} (zone : string) (t : datetime) : result datetime :=
  w <- tz_wall zone t ;;
  Ok (Datetime (year w) (month w) (day w) (hour w) (minute w) (second w)
        (microsecond w) (Some (Tz zone (tz_offset zone t)))).

Module hebrewcal.

(** Modelled from the spec: the attributes the code reads off a
    [hebrewcal.HebrewDate], typed as the data model of the spec types them. *)
Record HebrewDate : Type := {
  day : Z;
  month : Z;
  year : Z;
  month_name : string;
  year_name : string;
  day_of_week : Z;
  is_holiday : bool;
  parsha : string
}.

(** [HebrewDate.from_gregorian(year, month, day)] *)
Class HebrewCal : Type := {
  from_gregorian : Z -> Z -> Z -> result HebrewDate
}.

End hebrewcal.

Module ephem.

Record Observer : Type := { lat : string; lon : string; date : string }.

Inductive Body : Type := Sun | Moon | Mercury | Venus | Mars | Jupiter | Saturn.

(** What the code reads off a body after [compute]. *)
Record computed : Type := { alt : Q; phase : Q }.

Class Ephem : Type := {
  (** [body.compute(observer)] *)
  compute_at : Body -> Observer -> result computed;
  (** [body.compute(date)] *)
  compute_on : Body -> datetime -> result computed;
  (** [m = Moon(); m.compute_new_moon(); m.date] *)
  compute_new_moon : result datetime
}.

End ephem.

Module astral.

Record Observer : Type := { latitude : Q; longitude : Q }.

Record LocationInfo : Type := {
  name : string;
  region : string;
  timezone : string;
  loc_latitude : Q;
  loc_longitude : Q
}.

(** [location.observer] *)
Definition observer (l : LocationInfo) : Observer :=
  {| latitude := loc_latitude l; longitude := loc_longitude l |}.

(** The four events the code reads off [sun(...)]. *)
Record SunTimes : Type := {
  dawn : datetime;
  sunrise : datetime;
  sunset : datetime;
  dusk : datetime
}.

Class Astral : Type := {
  (** the values [LocationInfo] takes for the arguments left out *)
  default_timezone : string;
  default_latitude : Q;
  default_longitude : Q;
  (** [sun(observer, date=date)] *)
  sun : Observer -> datetime -> result SunTimes
}.

End astral.

(* ================================================================== *)
(** * [app/utils/hebrew_date.py] *)
(* ================================================================== *)

Import hebrewcal.

Record HebrewDateCalculator : Type := {
  hd_cache : TTLCache.t;
  hd_israel_tz : string
}.

(** [HebrewDateCalculator.__init__]; [CACHE_MAX_SIZE] and [CACHE_TTL] are
    read from the environment. *)
Definition HebrewDateCalculator_init (CACHE_MAX_SIZE : nat) (CACHE_TTL : Z)
  : HebrewDateCalculator :=
  {| hd_cache := TTLCache.empty CACHE_MAX_SIZE CACHE_TTL;
     hd_israel_tz := "Asia/Jerusalem" |}.

Definition _calculate_omer_day (date : datetime) : result (option Z) :=
  pesach_start <- datetime_new (PyDatetime.year date) 4 15 ;;
  delta <- sub date pesach_start ;;
  let days := days delta in
  Ok (if (0 <=? days) && (days <? 49) then Some (days + 1) else None).

Definition _is_holiday `{HebrewCal} (date : datetime) : result bool :=
  hebrew_date <- from_gregorian (PyDatetime.year date) (PyDatetime.month date)
                   (PyDatetime.day date) ;;
  Ok (is_holiday hebrew_date).

Definition zodiac_signs : list string :=
  [ "Aries"; "Taurus"; "Gemini"; "Cancer";
    "Leo"; "Virgo"; "Libra"; "Scorpio";
    "Sagittarius"; "Capricorn"; "Aquarius"; "Pisces" ]%string.

Definition _get_zodiac (date : datetime) : result string :=
  epoch <- datetime_new 1 1 1 ;;
  delta <- sub date epoch ;;
  let jd := days delta + 1721425 in
  let zodiac_start := (jd - 1) mod 12 in
  py_index zodiac_signs zodiac_start.

Definition _get_parsha `{HebrewCal} (date : datetime) : result string :=
  hebrew_date <- from_gregorian (PyDatetime.year date) (PyDatetime.month date)
                   (PyDatetime.day date) ;;
  Ok (parsha hebrew_date).

Definition json_of_omer (o : option Z) : json :=
  match o with
  | Some n => JInt n
  | None => JNull
  end.

(** The [result] literal of [get_hebrew_date]. *)
Definition hebrew_date_result (date : datetime) (hebrew_date : HebrewDate)
  (omer_day : option Z) (is_holiday : bool) (zodiac : string) (parsha : string)
  : json :=
  JDict
    [ ("gregorian_date", JStr (strftime_Ymd date));
      ("hebrew_day", JInt (day hebrew_date));
      ("hebrew_month", JInt (month hebrew_date));
      ("hebrew_year", JInt (year hebrew_date));
      ("hebrew_month_name", JStr (month_name hebrew_date));
      ("hebrew_year_name", JStr (year_name hebrew_date));
      ("is_holiday", JBool is_holiday);
      ("omer_day", json_of_omer omer_day);
      ("zodiac_sign", JStr zodiac);
      ("day_of_week", JInt (day_of_week hebrew_date));
      ("parsha", JStr parsha) ]%string.

(** The body of the [try] block of [get_hebrew_date], up to the result. *)
Definition hebrew_date_try `{Pytz} `{HebrewCal} (self : HebrewDateCalculator)
  (date : datetime) : result json :=
  date <- astimezone (hd_israel_tz self) date ;;
  hebrew_date <- from_gregorian (PyDatetime.year date) (PyDatetime.month date)
                   (PyDatetime.day date) ;;
  omer_day <- _calculate_omer_day date ;;
  is_holiday <- _is_holiday date ;;
  zodiac <- _get_zodiac date ;;
  parsha <- _get_parsha date ;;
  Ok (hebrew_date_result date hebrew_date omer_day is_holiday zodiac parsha).

Definition get_hebrew_date `{Pytz} `{HebrewCal} (self : HebrewDateCalculator)
  (clk : clock) (date : datetime) : result json * HebrewDateCalculator :=
  let cache_key := strftime_Ymd date in
  if TTLCache.contains (hd_cache self) (monotonic clk) cache_key then
    (TTLCache.getitem (hd_cache self) (monotonic clk) cache_key, self)
  else
    match hebrew_date_try self date with
    | Ok result =>
        (Ok result,
         {| hd_cache := TTLCache.put (hd_cache self) (monotonic clk) cache_key result;
            hd_israel_tz := hd_israel_tz self |})
    | Raise e => (Ok (error_body (exn_msg e)), self)
    end.

(* ================================================================== *)
(** * [app/utils/astronomy.py] *)
(* ================================================================== *)

Import ephem astral.

Record AstronomyCalculator : Type := {
  cache : TTLCache.t;
  israel_tz : string;
  location : LocationInfo
}.

(** [AstronomyCalculator.__init__]: the location is
    [LocationInfo("Jerusalem", "Israel")], built once, with the library's
    own values for the time zone and the coordinates. *)
Definition AstronomyCalculator_init `{Astral} (CACHE_MAX_SIZE : nat) (CACHE_TTL : Z)
  : AstronomyCalculator :=
  {| cache := TTLCache.empty CACHE_MAX_SIZE CACHE_TTL;
     israel_tz := "Asia/Jerusalem";
     location :=
       {| name := "Jerusalem"; region := "Israel";
          timezone := default_timezone;
          loc_latitude := default_latitude;
          loc_longitude := default_longitude |} |}.

Definition _calculate_moon_age `{Ephem} (clk : clock) : result Z :=
  new_moon_date <- compute_new_moon ;;
  delta <- sub (wall clk) new_moon_date ;;
  Ok (days delta).

Definition phases : list string :=
  [ "New Moon"; "Waxing Crescent"; "First Quarter";
    "Waxing Gibbous"; "Full Moon"; "Waning Gibbous";
    "Last Quarter"; "Waning Crescent" ]%string.

Definition phase_index (phase : Q) : Z := py_int ((phase / 100) * 8)%Q.

Definition _calculate_moon_phase `{Ephem} (clk : clock) (phase : Q) : result json :=
  name <- py_index phases (phase_index phase) ;;
  age <- _calculate_moon_age clk ;;
  Ok (JDict [ ("name", JStr name);
              ("percentage", JFloat phase);
              ("age", JInt age) ]%string).

Definition mazalot : list string :=
  [ "Aries"; "Taurus"; "Gemini"; "Cancer";
    "Leo"; "Virgo"; "Libra"; "Scorpio";
    "Sagittarius"; "Capricorn"; "Aquarius"; "Pisces" ]%string.

Definition _get_mazal (position : Q) : result string :=
  py_index mazalot (py_int position mod Z.of_nat (List.length mazalot)).

Definition signs : list string :=
  [ "Aries"; "Taurus"; "Gemini"; "Cancer";
    "Leo"; "Virgo"; "Libra"; "Scorpio";
    "Sagittarius"; "Capricorn"; "Aquarius"; "Pisces" ]%string.

Definition _get_zodiac_sign (position : Q) : result string :=
  py_index signs (py_int position mod Z.of_nat (List.length signs)).

Definition planets : list (string * Body) :=
  [ ("sun", Sun); ("moon", Moon); ("mercury", Mercury); ("venus", Venus);
    ("mars", Mars); ("jupiter", Jupiter); ("saturn", Saturn) ]%string.

(** The loop of [_calculate_zodiac_positions] over [planets.items()]. *)
Fixpoint zodiac_positions_loop `{Ephem} (items : list (string * Body))
  (date : datetime) : result dict :=
  match items with
  | [] => Ok []
  | (name, planet) :: rest =>
      planet <- compute_on planet date ;;
      constellation <- _get_mazal (alt planet) ;;
      sign <- _get_zodiac_sign (alt planet) ;;
      positions <- zodiac_positions_loop rest date ;;
      Ok ((name, JDict [ ("constellation", JStr constellation);
                         ("degree", JFloat (alt planet));
                         ("sign", JStr sign) ]%string) :: positions)
  end.

Definition _calculate_zodiac_positions `{Ephem} (date : datetime) : result json :=
  positions <- zodiac_positions_loop planets date ;;
  Ok (JDict positions).

Definition _calculate_prayer_times `{Astral} (self : AstronomyCalculator)
  (date : datetime) (latitude longitude : Q) : result json :=
  s <- sun (observer (location self)) date ;;
  Ok (JDict [ ("alos", JStr (strftime_HM (dawn s)));
              ("sunrise", JStr (strftime_HM (sunrise s)));
              ("talit", JStr (strftime_HM (sunrise s)));
              ("shacharit", JStr (strftime_HM (sunrise s)));
              ("mincha_gedola", JStr (strftime_HM (sunset s)));
              ("mincha_ketana", JStr (strftime_HM (sunset s)));
              ("plag_hamincha", JStr (strftime_HM (sunset s)));
              ("sunset", JStr (strftime_HM (sunset s)));
              ("tzeit_hakochavim", JStr (strftime_HM (dusk s))) ]%string).

Definition _is_lunar_eclipse (date : datetime) : bool := false.

Definition _is_solar_eclipse (date : datetime) : bool := false.

Definition _get_astronomical_events (date : datetime) : list json :=
  let events := [] in
  let events :=
    if _is_lunar_eclipse date then
      events ++ [JDict [ ("type", JStr "lunar_eclipse");
                         ("time", JStr (strftime_HM date));
                         ("description", JStr "Lunar eclipse visible") ]%string]
    else events in
  let events :=
    if _is_solar_eclipse date then
      events ++ [JDict [ ("type", JStr "solar_eclipse");
                         ("time", JStr (strftime_HM date));
                         ("description", JStr "Solar eclipse visible") ]%string]
    else events in
  events.

(** The body of the [try] block of [get_astronomical_data], up to the result. *)
Definition astronomical_data_try `{FloatRepr} `{Pytz} `{Ephem} `{Astral}
  (self : AstronomyCalculator) (clk : clock) (date : datetime)
  (latitude longitude : Q) : result json :=
  date <- astimezone (israel_tz self) date ;;
  let observer :=
    {| lat := float_str latitude; lon := float_str longitude;
       ephem.date := strftime_Ymd_slash date |} in
  moon <- compute_at Moon observer ;;
  moon_phase <- _calculate_moon_phase clk (phase moon) ;;
  sun <- compute_at Sun observer ;;
  zodiac_positions <- _calculate_zodiac_positions date ;;
  prayer_times <- _calculate_prayer_times self date latitude longitude ;;
  moon_constellation <- _get_mazal (alt moon) ;;
  sun_constellation <- _get_mazal (alt sun) ;;
  Ok (JDict
        [ ("date", JStr (strftime_Ymd date));
          ("moon", JDict [ ("phase", moon_phase);
                           ("position", JFloat (alt moon));
                           ("constellation", JStr moon_constellation) ]);
          ("sun", JDict [ ("position", JFloat (alt sun));
                          ("constellation", JStr sun_constellation) ]);
          ("zodiac_positions", zodiac_positions);
          ("prayer_times", prayer_times);
          ("astronomical_events", JList (_get_astronomical_events date)) ]%string).

Definition astronomy_cache_key `{FloatRepr} (date : datetime) (latitude longitude : Q)
  : string :=
  (strftime_Ymd date ++ "_" ++ float_str latitude ++ "_" ++ float_str longitude)%string.

Definition get_astronomical_data `{FloatRepr} `{Pytz} `{Ephem} `{Astral}
  (self : AstronomyCalculator) (clk : clock) (date : datetime)
  (latitude longitude : Q) : result json * AstronomyCalculator :=
  let cache_key := astronomy_cache_key date latitude longitude in
  if TTLCache.contains (cache self) (monotonic clk) cache_key then
    (TTLCache.getitem (cache self) (monotonic clk) cache_key, self)
  else
    match astronomical_data_try self clk date latitude longitude with
    | Ok result =>
        (Ok result,
         {| cache := TTLCache.put (cache self) (monotonic clk) cache_key result;
            israel_tz := israel_tz self;
            location := location self |})
    | Raise e => (Ok (error_body (exn_msg e)), self)
    end.

(* ================================================================== *)
(** * [app/utils/sefaria.py] *)
(* ================================================================== *)

Module sefaria.

(** requests: [requests.get(url, headers=headers, params=params)] followed by
    [raise_for_status()] and [json()].  A [requests.RequestException] is
    raised with the class [LibraryError]. *)
Class Requests : Type := {
  get_json : string -> dict -> dict -> result json
}.

Definition is_RequestException (e : exn) : bool :=
  match exn_kind e with
  | LibraryError => true
  | _ => false
  end.

Record SefariaAPI : Type := {
  base_url : string;
  api_key : option string;
  headers : dict;
  text_cache : TTLCache.t;
  parsha_cache : TTLCache.t
}.

(** [SefariaAPI.__init__]; [SEFARIA_API_KEY], [CACHE_MAX_SIZE] and
    [CACHE_TTL] are read from the environment. *)
Definition SefariaAPI_init (SEFARIA_API_KEY : option string)
  (CACHE_MAX_SIZE : nat) (CACHE_TTL : Z) : SefariaAPI :=
  {| base_url := "https://api.sefaria.org/v3";
     api_key := SEFARIA_API_KEY;
     headers :=
       [ ("accept", JStr "application/json");
         ("Authorization",
          match SEFARIA_API_KEY with
          | Some k => if String.eqb k "" then JNull else JStr ("Bearer " ++ k)
          | None => JNull
          end) ]%string;
     text_cache := TTLCache.empty CACHE_MAX_SIZE CACHE_TTL;
     parsha_cache := TTLCache.empty CACHE_MAX_SIZE CACHE_TTL |}.

(** [try: ... except requests.RequestException as e: return {"error": str(e)}] *)
Definition except_RequestException (block : result json) : result json :=
  match block with
  | Ok r => Ok r
  | Raise e => if is_RequestException e then Ok (error_body (exn_msg e)) else Raise e
  end.

Definition default_version : string := "English - Metsudah Linear Bible".

(** The class body defines [get_text] and [get_parsha] twice; the later
    definitions, without the caches, are the methods of the class. *)
Definition get_text `{Requests} (self : SefariaAPI) (ref : string) (version : string)
  : result json :=
  let url := (base_url self ++ "/texts")%string in
  let params :=
    [ ("ref", JStr ref); ("version", JStr version); ("context", JBool true) ]%string in
  except_RequestException (get_json url (headers self) params).

Definition get_parsha `{Requests} (self : SefariaAPI) (date : datetime) : result json :=
  let url := (base_url self ++ "/calendar")%string in
  let params :=
    [ ("date", JStr (strftime_Ymd date)); ("type", JStr "parsha") ]%string in
  except_RequestException (get_json url (headers self) params).

Definition kabbalistic_sources : list string :=
  [ "Zohar"; "Tanya"; "Baal Shem Tov"; "Ari" ]%string.

Definition chassidic_sources : list string :=
  [ "Chabad.org"; "Tanya"; "Chassidic Insights" ]%string.

(** The loop [for source in sources: texts[source.lower()] = ...]. *)
Fixpoint texts_loop `{Requests} (self : SefariaAPI) (sources : list string)
  (ref : string) (texts : dict) : result dict :=
  match sources with
  | [] => Ok texts
  | source :: rest =>
      let text_ref := (source ++ "." ++ ref)%string in
      text <- get_text self text_ref default_version ;;
      texts_loop self rest ref (dict_set texts (str_lower source) text)
  end.

Definition get_kabbalistic_texts `{Requests} (self : SefariaAPI) (ref : string)
  : result json :=
  texts <- texts_loop self kabbalistic_sources ref [] ;;
  Ok (JDict texts).

Definition get_chassidic_texts `{Requests} (self : SefariaAPI) (ref : string)
  : result json :=
  texts <- texts_loop self chassidic_sources ref [] ;;
  Ok (JDict texts).

Definition get_related_texts `{Requests} (self : SefariaAPI) (ref : string)
  : result json :=
  rashi <- get_text self ("Rashi on " ++ ref) default_version ;;
  midrash <- get_text self ("Midrash Rabbah." ++ ref) default_version ;;
  gemara <- get_text self ("Gemara." ++ ref) default_version ;;
  kabbalistic <- get_kabbalistic_texts self ref ;;
  chassidic <- get_chassidic_texts self ref ;;
  Ok (JDict [ ("rashi", rashi);
              ("midrash", midrash);
              ("gemara", gemara);
              ("kabbalistic", kabbalistic);
              ("chassidic", chassidic) ]%string).

End sefaria.

(** [str(v)], as an f-string formats a value: a string is itself, any other
    value is its [repr]. *)
Class PyRepr : Type := { py_repr : json -> string }.

Definition py_str `{PyRepr} (v : json) : string :=
  match v with
  | JStr s => s
  | _ => py_repr v
  end.

(* ================================================================== *)
(** * The handlers: [endpoints/torah.py] and [endpoints/prayer.py] *)
(* ================================================================== *)

Definition invalid_date_format : json :=
  error_body "Invalid date format. Please use YYYY-MM-DD".

(** [try: ... except ValueError: return {"error": ...}] around a block that
    also threads a calculator. *)
Definition except_ValueError {S : Type} (block : result json * S)
  : result json * S :=
  match fst block with
  | Ok body => block
  | Raise e => if is_value_error e then (Ok invalid_date_format, snd block) else block
  end.

(** The handlers as functions of their arguments; how the routes are
    registered is not part of the model. *)
Module torah.

(** [GET /astronomy/{date}] *)
Definition get_astronomy_data `{FloatRepr} `{Pytz} `{Ephem} `{Astral}
  (astronomy_calculator : AstronomyCalculator) (clk : clock)
  (date : string) (latitude longitude : Q) : result json * AstronomyCalculator :=
  except_ValueError
    match strptime_Ymd date with
    | Ok date_obj =>
        get_astronomical_data astronomy_calculator clk date_obj latitude longitude
    | Raise e => (Raise e, astronomy_calculator)
    end.

(** [GET /hebrew-date/{date}] *)
Definition get_hebrew_date `{Pytz} `{HebrewCal}
  (hebrew_date_calculator : HebrewDateCalculator) (clk : clock) (date : string)
  : result json * HebrewDateCalculator :=
  except_ValueError
    match strptime_Ymd date with
    | Ok date_obj => get_hebrew_date hebrew_date_calculator clk date_obj
    | Raise e => (Raise e, hebrew_date_calculator)
    end.

(** [GET /weekly-parsha], the last of the three definitions of the name in
    the file: the one the module and its router end up with. *)
Definition get_weekly_parsha `{PyRepr} `{sefaria.Requests}
  (sefaria_api : sefaria.SefariaAPI) (clk : clock) : result json :=
  let current_date := wall clk in
  parsha_info <- sefaria.get_parsha sefaria_api current_date ;;
  parsha_name <- py_get parsha_info "parsha" (JStr "") ;;
  related_texts <- sefaria.get_related_texts sefaria_api
                     ("Torah." ++ py_str parsha_name) ;;
  let hebrew_date :=
    JDict [ ("day", JInt (PyDatetime.day current_date));
            ("month", JInt (PyDatetime.month current_date));
            ("year", JInt (PyDatetime.year current_date));
            ("month_name", JStr "");
            ("year_name", JStr "");
            ("is_holiday", JBool false);
            ("omer_day", JNull) ]%string in
  let moon :=
    JDict [ ("position", JNull); ("phase", JNull); ("constellation", JStr "") ]%string in
  let mazalot :=
    JDict [ ("sun", JDict [ ("position", JNull); ("constellation", JStr "") ]);
            ("moon", moon) ]%string in
  rashi <- py_get related_texts "rashi" (JDict []) ;;
  parsha_text <- py_get rashi "text" (JStr "") ;;
  omer_day <- py_get hebrew_date "omer_day" JNull ;;
  is_holiday <- py_get hebrew_date "is_holiday" JNull ;;
  moon_phase <- py_get moon "phase" JNull ;;
  current_mazal <- py_get moon "constellation" JNull ;;
  let parsha_data :=
    [ ("parsha_name", parsha_name);
      ("hebrew_date", hebrew_date);
      ("english_date", JStr (strftime_Ymd current_date));
      ("parsha_text", parsha_text);
      ("related_texts", related_texts);
      ("astronomical_data", mazalot);
      ("spiritual_significance",
       JDict [ ("omer_day", omer_day);
               ("is_holiday", is_holiday);
               ("moon_phase", moon_phase);
               ("current_mazal", current_mazal) ]) ]%string in
  match parsha_info with
  | JDict info =>
      match dict_get info "error" with
      | Some err => Ok (JDict (dict_set parsha_data "error" err))
      | None => Ok (JDict parsha_data)
      end
  | _ => Ok (JDict parsha_data)
  end.

End torah.

Module prayer.

(** [GET /daily-schedule]; [date] is optional. *)
Definition get_daily_prayer_schedule `{Astral} (clk : clock)
  (latitude longitude : Q) (date : option string) : result json :=
  date <- match date with
          | None => Ok (wall clk)
          | Some date => strptime_Ymd date
          end ;;
  let city :=
    {| name := "Custom Location"; region := ""; timezone := "Asia/Jerusalem";
       loc_latitude := latitude; loc_longitude := longitude |} in
  s <- sun (observer city) date ;;
  Ok (JDict
        [ ("date", JStr (strftime_Ymd date));
          ("prayer_times",
           JDict [ ("alos", JStr (strftime_HM (dawn s)));
                   ("sunrise", JStr (strftime_HM (sunrise s)));
                   ("talit", JStr (strftime_HM (sunrise s)));
                   ("shacharit", JStr (strftime_HM (sunrise s)));
                   ("mincha_gedola", JStr (strftime_HM (sunset s)));
                   ("mincha_ketana", JStr (strftime_HM (sunset s)));
                   ("plag_hamincha", JStr (strftime_HM (sunset s)));
                   ("sunset", JStr (strftime_HM (sunset s)));
                   ("tzeit_hakochavim", JStr (strftime_HM (dusk s))) ]) ]%string).

(** [GET /tefillin]; [date] is optional. *)
Definition get_tefillin_schedule (clk : clock) (latitude longitude : Q)
  (date : option string) : result json :=
  date <- match date with
          | None => Ok (wall clk)
          | Some date => strptime_Ymd date
          end ;;
  Ok (JDict [ ("date", JStr (strftime_Ymd date));
              ("tefillin_allowed", JBool true);
              ("start_time", JStr "07:00");
              ("end_time", JStr "13:00") ]%string).

End prayer.

(* ================================================================== *)
(** * Notions of the specification, and stand-ins for the libraries *)
(* ================================================================== *)

(** The bin of a percentage when [0, 100) is cut into 8 bins of width 12.5:
    the number of whole multiples of 12.5 below it. *)
Definition phase_bin (p : Q) : Z := Qfloor (p / (25 # 2)).

(** The percentage from which the index [int((p / 100) * 8)] no longer fits
    the machine word of an index: 12.5 times [ssize_max + 1]. *)
Definition phase_word_limit : Q := 115292150460684697600 # 1.

(** What a body returned by a calculator call looks like when the call
    fails: [Ok] of a dictionary that has the key ["error"]. *)
Definition returns_error (r : result json) : bool :=
  match r with
  | Ok body => error_shaped body
  | Raise _ => false
  end.

(** A key of a body, [None] when the body is no dictionary or lacks it. *)
Definition body_field (body : json) (k : string) : option json :=
  match body with
  | JDict d => dict_get d k
  | _ => None
  end.

(** Every value the cache stores satisfies [P]. *)
Definition stores_only (P : json -> Prop) (c : TTLCache.t) : Prop :=
  Forall (fun e => P (TTLCache.value e)) (TTLCache.store c).

(** A successful snapshot reports no event. *)
Definition no_events (body : json) : Prop :=
  body_field body "astronomical_events" = Some (JList []).

(** The slot groups of the prayer-time table, against the sun events. *)
Definition slots_share_instants (tbl : json) (s : SunTimes) : Prop :=
  body_field tbl "alos" = Some (JStr (strftime_HM (dawn s)))
  /\ body_field tbl "sunrise" = Some (JStr (strftime_HM (sunrise s)))
  /\ body_field tbl "talit" = body_field tbl "sunrise"
  /\ body_field tbl "shacharit" = body_field tbl "sunrise"
  /\ body_field tbl "sunset" = Some (JStr (strftime_HM (sunset s)))
  /\ body_field tbl "mincha_gedola" = body_field tbl "sunset"
  /\ body_field tbl "mincha_ketana" = body_field tbl "sunset"
  /\ body_field tbl "plag_hamincha" = body_field tbl "sunset"
  /\ body_field tbl "tzeit_hakochavim" = Some (JStr (strftime_HM (dusk s))).

(** Inserting a run of (time, key, value) triples, in order. *)
Definition put_all (c : TTLCache.t) (ops : list (Z * string * json)) : TTLCache.t :=
  fold_left (fun c '(now, k, v) => TTLCache.put c now k v) ops c.

(** A run of calls of the Hebrew-date calculator, each with the clock it is
    made at: the bodies returned, in order, and the calculator at the end. *)
Fixpoint serve_hebrew_dates `{Pytz} `{HebrewCal} (calc : HebrewDateCalculator)
  (calls : list (clock * datetime)) : list (result json) * HebrewDateCalculator :=
  match calls with
  | [] => ([], calc)
  | (clk, date) :: rest =>
      let (body, calc') := get_hebrew_date calc clk date in
      let (bodies, calc'') := serve_hebrew_dates calc' rest in
      (body :: bodies, calc'')
  end.

(** The civil date a naive midnight stands for is one that exists. *)
Definition civil_midnight (t : datetime) : Prop :=
  exists y m d, t = Datetime y m d 0 0 0 0 None /\ valid_date y m d = true.

(** What a Sefaria request comes to once a [RequestException] has been
    turned into an error body: the JSON fetched, or [{"error": str(e)}]. *)
Definition fetched `{sefaria.Requests} (self : sefaria.SefariaAPI) (path : string)
  (params : dict) : json :=
  match sefaria.get_json (sefaria.base_url self ++ path) (sefaria.headers self) params with
  | Ok r => r
  | Raise e => error_body (exn_msg e)
  end.

Definition fetched_text `{sefaria.Requests} (self : sefaria.SefariaAPI) (ref : string)
  : json :=
  fetched self "/texts"
    [ ("ref", JStr ref);
      ("version", JStr sefaria.default_version);
      ("context", JBool true) ]%string.

Definition fetched_calendar `{sefaria.Requests} (self : sefaria.SefariaAPI)
  (date : datetime) : json :=
  fetched self "/calendar"
    [ ("date", JStr (strftime_Ymd date)); ("type", JStr "parsha") ]%string.

(** The requests library raises nothing but its own exceptions. *)
Definition raises_only_RequestException `{sefaria.Requests} : Prop :=
  forall url headers params e,
    sefaria.get_json url headers params = Raise e ->
    sefaria.is_RequestException e = true.

(** Stand-ins for the libraries, for running the model on concrete inputs. *)
Module Stub.

(** The process runs in the observance zone: the wall clock is unchanged and
    the offset is three hours. *)
Definition pytz : Pytz :=
  {| tz_wall := fun _ t => Ok t; tz_offset := fun _ _ => 10800 |}.

Definition calendar : HebrewCal :=
  {| from_gregorian := fun _ _ _ =>
       Ok {| day := 24; month := 2; year := 5784;
             month_name := "Iyyar"; year_name := "5784";
             day_of_week := 6; is_holiday := false;
             parsha := "Bechukotai" |} |}.

(** Prints a float as the fraction it is. *)
Definition float_repr : FloatRepr :=
  {| float_str := fun q =>
       (NilZero.string_of_int (Z.to_int (Qnum q)) ++ "/"
        ++ NilZero.string_of_uint (Pos.to_uint (Qden q)))%string |}.

Definition sky : Ephem :=
  {| compute_at := fun _ _ => Ok {| alt := 1 # 2; phase := 55 |};
     compute_on := fun _ _ => Ok {| alt := (-1) # 4; phase := 55 |};
     compute_new_moon := Ok (Datetime 2024 5 8 3 22 0 0 None) |}.

(** The sun rises an hour later north of 45 degrees. *)
Definition almanac : Astral :=
  {| default_timezone := "Europe/London";
     default_latitude := 514733 # 10000;
     default_longitude := (-8333) # 10000000;
     sun := fun o t =>
       let h := if Qle_bool (latitude o) 45 then 5 else 6 in
       Ok {| dawn := Datetime (PyDatetime.year t) (PyDatetime.month t)
                       (PyDatetime.day t) (h - 1) 30 0 0 None;
             sunrise := Datetime (PyDatetime.year t) (PyDatetime.month t)
                          (PyDatetime.day t) h 0 0 0 None;
             sunset := Datetime (PyDatetime.year t) (PyDatetime.month t)
                         (PyDatetime.day t) 19 45 0 0 None;
             dusk := Datetime (PyDatetime.year t) (PyDatetime.month t)
                       (PyDatetime.day t) 20 15 0 0 None |} |}.

(** A sky whose moon has no [compute_new_moon]. *)
Definition moonless : Ephem :=
  {| compute_at := fun _ _ => Ok {| alt := 1 # 2; phase := 55 |};
     compute_on := fun _ _ => Ok {| alt := (-1) # 4; phase := 55 |};
     compute_new_moon :=
       Raise (Exn AttributeError "'Moon' object has no attribute 'compute_new_moon'") |}.

(** A clock: the timer at 100, [datetime.now()] at noon of 1 June 2024. *)
Definition noon : clock := Clock 100 (Datetime 2024 6 1 12 0 0 0 None).

Definition june_first : datetime := Datetime 2024 6 1 0 0 0 0 None.

Definition jerusalem_lat : Q := 317683 # 10000.
Definition jerusalem_lon : Q := 352137 # 10000.
Definition reykjavik_lat : Q := 641466 # 10000.
Definition reykjavik_lon : Q := (-219426) # 10000.

(** Sefaria out of reach: every request ends in a connection error. *)
Definition offline : sefaria.Requests :=
  {| sefaria.get_json := fun _ _ _ =>
       Raise (Exn LibraryError "Connection refused") |}.

(** Sefaria answering: the calendar names the parsha, every text is one line. *)
Definition online : sefaria.Requests :=
  {| sefaria.get_json := fun url _ params =>
       if String.eqb url "https://api.sefaria.org/v3/calendar"
       then Ok (JDict [ ("parsha", JStr "Korach") ]%string)
       else Ok (JDict [ ("text", JStr "In the beginning");
                        ("ref", match dict_get params "ref" with
                                | Some r => r
                                | None => JNull
                                end) ]%string) |}.

Definition plain_repr : PyRepr := {| py_repr := fun v => type_name v |}.

End Stub.

(* ================================================================== *)
(** * Facts about the Python layer *)
(* ================================================================== *)

(** Peels the [bind]s and [let]s of a block that is known to have returned. *)
Ltac returned H :=
  repeat (cbv zeta in H;
          match type of H with
          | bind ?r _ = Ok _ =>
              let E := fresh "E" in
              destruct r eqn:E; cbn [bind] in H; [| discriminate H]
          end).

Section PythonFacts.

(** An index within the list is served by position. *)
Lemma fits_index_iff (i : Z) :
  fits_index i = true <-> - ssize_max - 1 <= i <= ssize_max.
Proof. unfold fits_index. rewrite andb_true_iff, !Z.leb_le. tauto. Qed.

Lemma py_index_in_range {A : Type} (l : list A) (i : Z) (d : A) :
  0 <= i < Z.of_nat (List.length l) -> i <= ssize_max ->
  py_index l i = Ok (nth (Z.to_nat i) l d).
Proof.
  intros Hi Hfit. unfold py_index.
  replace (fits_index i) with true
    by (symmetry; apply fits_index_iff; unfold ssize_max in *; lia).
  cbn [negb].
  destruct (Z.ltb_spec i 0) as [Hneg | _]; [lia |].
  destruct (Z.leb_spec 0 i) as [_ | Hneg]; [| lia].
  destruct (Z.ltb_spec i (Z.of_nat (List.length l))) as [_ | Hbig]; [| lia].
  cbn [andb].
  assert (Hlen : (Z.to_nat i < List.length l)%nat) by lia.
  destruct (nth_error l (Z.to_nat i)) as [a |] eqn:Hnth.
  - f_equal. symmetry. now apply nth_error_nth.
  - apply nth_error_None in Hnth. lia.
Qed.

(** [int()] agrees with the floor on non-negative floats. *)
Lemma py_int_nonneg (x : Q) : (0 <= x)%Q -> py_int x = Qfloor x.
Proof.
  intros Hx. unfold py_int. destruct x as [n d]. cbn.
  apply Z.quot_div_nonneg; [| lia].
  unfold Qle in Hx. cbn in Hx. lia.
Qed.

(** On a negative float [int()] is the negated floor of the negation. *)
Lemma py_int_neg (x : Q) : (x <= 0)%Q -> py_int x = - Qfloor (- x).
Proof.
  intros Hx. unfold py_int. destruct x as [n d]. cbn.
  unfold Qle in Hx. cbn in Hx.
  rewrite <- (Z.opp_involutive n) at 1.
  rewrite Z.quot_opp_l by lia.
  f_equal. apply Z.quot_div_nonneg; lia.
Qed.

(** [int()] reads the value of a float, not its representation. *)
Lemma py_int_comp (x y : Q) : (x == y)%Q -> py_int x = py_int y.
Proof.
  intros Hxy.
  destruct (Qlt_le_dec x 0) as [Hneg | Hpos].
  - rewrite (py_int_neg x), (py_int_neg y).
    + f_equal. apply Qfloor_comp. now rewrite Hxy.
    + rewrite <- Hxy. now apply Qlt_le_weak.
    + now apply Qlt_le_weak.
  - rewrite (py_int_nonneg x), (py_int_nonneg y); auto.
    + now apply Qfloor_comp.
    + now rewrite <- Hxy.
Qed.

Lemma Qfloor_add_Z (x : Q) (k : Z) : Qfloor (x + inject_Z k) = Qfloor x + k.
Proof.
  destruct x as [n d]. unfold Qfloor, Qplus, inject_Z. cbn [Qnum Qden].
  rewrite Pos.mul_1_r, Z.mul_1_r.
  apply Z.div_add. lia.
Qed.

(** Between two consecutive integers the floor is the lower one. *)
Lemma Qfloor_between (x : Q) (k : Z) :
  (inject_Z k <= x)%Q -> (x < inject_Z (k + 1))%Q -> Qfloor x = k.
Proof.
  intros Hlo Hhi.
  assert (H1 : k <= Qfloor x).
  { rewrite <- (Qfloor_Z k). now apply Qfloor_resp_le. }
  assert (H2 : Qfloor x < k + 1).
  { rewrite Zlt_Qlt. eapply Qle_lt_trans; [apply Qfloor_le | exact Hhi]. }
  lia.
Qed.

End PythonFacts.

(* ================================================================== *)
(** * The constellation placeholder: [_get_mazal], [_get_zodiac_sign] *)
(* ================================================================== *)

Section Mazal.

Lemma mazal_index_in_range (p : Q) :
  0 <= py_int p mod 12 < Z.of_nat (List.length mazalot).
Proof. cbn. apply Z.mod_pos_bound. lia. Qed.

Lemma get_mazal_by_truncation (p : Q) :
  _get_mazal p = Ok (nth (Z.to_nat (py_int p mod 12)) mazalot ""%string).
Proof.
  unfold _get_mazal. change (Z.of_nat (List.length mazalot)) with 12.
  apply py_index_in_range; [apply mazal_index_in_range |].
  pose proof (Z.mod_pos_bound (py_int p) 12). unfold ssize_max. lia.
Qed.

Lemma get_zodiac_sign_is_get_mazal (p : Q) : _get_zodiac_sign p = _get_mazal p.
Proof. reflexivity. Qed.

(** A float is whole when it equals its floor. *)
Lemma py_int_whole (p : Q) : (p == inject_Z (Qfloor p))%Q -> py_int p = Qfloor p.
Proof.
  intros Hp. rewrite (py_int_comp p (inject_Z (Qfloor p)) Hp).
  unfold py_int, inject_Z. cbn [Qnum Qden]. apply Z.quot_1_r.
Qed.

Lemma py_int_add_12 (p : Q) :
  (0 <= p)%Q \/ (p + 12 <= 0)%Q \/ (p == inject_Z (Qfloor p))%Q ->
  py_int (p + 12) = py_int p + 12.
Proof.
  intros [Hp | [Hp | Hp]].
  - rewrite (py_int_nonneg p Hp), py_int_nonneg by lra.
    apply (Qfloor_add_Z p 12).
  - rewrite (py_int_neg p), (py_int_neg (p + 12)) by lra.
    assert (E : (- (p + 12) == - p + inject_Z (-12))%Q)
      by (change (inject_Z (-12)) with (-12)%Q; ring).
    rewrite (Qfloor_comp _ _ E), Qfloor_add_Z. lia.
  - assert (E : (p + 12 == inject_Z (Qfloor p + 12))%Q).
    { rewrite inject_Z_plus. change (inject_Z 12) with 12%Q. now rewrite <- Hp. }
    rewrite (py_int_comp _ _ E), (py_int_whole p Hp).
    unfold py_int, inject_Z. cbn [Qnum Qden]. apply Z.quot_1_r.
Qed.

(** C2, as the code has it.  The name is the one at index
    [int(p) mod 12], where [int] truncates toward zero; both mappings are the
    same function; equal positions give equal names; for [p >= 0] and for
    whole [p] the index is [floor(p) mod 12]; and for [p >= 0], for
    [p <= -12] and for whole [p], [p + 12] gives the name [p] gives. *)
Theorem get_mazal_truncates (p q : Q) :
  _get_mazal p = Ok (nth (Z.to_nat (py_int p mod 12)) mazalot ""%string)
  /\ _get_zodiac_sign p = _get_mazal p
  /\ ((p == q)%Q -> _get_mazal p = _get_mazal q)
  /\ ((0 <= p)%Q \/ (p == inject_Z (Qfloor p))%Q ->
      _get_mazal p = Ok (nth (Z.to_nat (Qfloor p mod 12)) mazalot ""%string))
  /\ ((0 <= p)%Q \/ (p + 12 <= 0)%Q \/ (p == inject_Z (Qfloor p))%Q ->
      _get_mazal (p + 12) = _get_mazal p).
Proof.
  split; [apply get_mazal_by_truncation |].
  split; [apply get_zodiac_sign_is_get_mazal |].
  split; [| split].
  - intros Hpq. unfold _get_mazal. now rewrite (py_int_comp p q Hpq).
  - intros Hp. rewrite get_mazal_by_truncation.
    destruct Hp as [Hp | Hp];
      [now rewrite (py_int_nonneg p Hp) | now rewrite (py_int_whole p Hp)].
  - intros Hp. unfold _get_mazal. rewrite (py_int_add_12 p Hp).
    change (Z.of_nat (List.length mazalot)) with 12.
    f_equal. rewrite <- (Z.mul_1_l 12) at 1. apply Z.mod_add. lia.
Qed.

(** The theorem at [p = 7/2], [q = 14/4]: Cancer, before and after a turn. *)
Lemma get_mazal_truncates_witness :
  _get_mazal (7 # 2) = Ok "Cancer"%string
  /\ _get_mazal (14 # 4) = Ok "Cancer"%string
  /\ _get_mazal ((7 # 2) + 12) = Ok "Cancer"%string.
Proof.
  destruct (get_mazal_truncates (7 # 2) (14 # 4)) as (Hname & _ & Hdet & _ & Hturn).
  assert (Hq : (7 # 2 == 14 # 4)%Q) by reflexivity.
  assert (Hp : (0 <= 7 # 2)%Q) by (unfold Qle; cbn; lia).
  split; [exact Hname |].
  split; [rewrite <- (Hdet Hq); exact Hname |].
  rewrite (Hturn (or_introl Hp)). exact Hname.
Defined.

(** C2 as stated fails at [p = -1/2]: the code answers Aries (index
    [int(-0.5) = 0]), the floor rule asks for Pisces (index [-1 mod 12 = 11]),
    and one period further, at [11.5], the code answers Pisces. *)
Lemma get_mazal_at_minus_half :
  _get_mazal ((-1) # 2) = Ok "Aries"%string
  /\ py_index mazalot (Qfloor ((-1) # 2) mod 12) = Ok "Pisces"%string
  /\ _get_mazal (((-1) # 2) + 12) = Ok "Pisces"%string.
Proof. split; [reflexivity | split; reflexivity]. Qed.

End Mazal.

(* ================================================================== *)
(** * The moon phase name: [_calculate_moon_phase] *)
(* ================================================================== *)

Section MoonPhase.

Context `{Ephem}.

Lemma phase_index_is_bin (p : Q) : (0 <= p)%Q -> phase_index p = phase_bin p.
Proof.
  intros Hp. unfold phase_index, phase_bin.
  rewrite py_int_nonneg.
  - apply Qfloor_comp. field.
  - assert (E : (p / 100 * 8 == p * (2 # 25))%Q) by field. rewrite E. lra.
Qed.

Lemma phase_bin_bounds (p : Q) :
  (0 <= p)%Q -> (p < 100)%Q ->
  0 <= phase_bin p < 8
  /\ (inject_Z (phase_bin p) * (25 # 2) <= p)%Q
  /\ (p < inject_Z (phase_bin p + 1) * (25 # 2))%Q.
Proof.
  intros H0 H100. unfold phase_bin.
  set (x := (p / (25 # 2))%Q).
  assert (Ex : (p == x * (25 # 2))%Q) by (unfold x; field).
  pose proof (Qfloor_le x) as Hlo.
  pose proof (Qlt_floor x) as Hhi.
  assert (Hx0 : (0 <= x)%Q) by lra.
  assert (Hx8 : (x < 8)%Q) by lra.
  repeat split.
  - change 0 with (Qfloor 0). now apply Qfloor_resp_le.
  - rewrite Zlt_Qlt. eapply Qle_lt_trans; [exact Hlo | exact Hx8].
  - lra.
  - lra.
Qed.

Lemma phase_bin_unique (p : Q) (k : Z) :
  (inject_Z k * (25 # 2) <= p)%Q -> (p < inject_Z (k + 1) * (25 # 2))%Q ->
  phase_bin p = k.
Proof.
  intros Hlo Hhi. unfold phase_bin.
  set (x := (p / (25 # 2))%Q).
  assert (Ex : (p == x * (25 # 2))%Q) by (unfold x; field).
  apply Qfloor_between; lra.
Qed.

(** C3.  For a percentage [p] in [0, 100) the bin [k = floor(p / 12.5)] lies
    in 0..7, [p] lies in [12.5 k, 12.5 (k + 1)), and the phase dictionary
    carries the [k]-th of the eight names (whatever the moon's age comes to);
    at [p = 0] that name is New Moon, and on [50, 62.5) it is Full Moon. *)
Theorem moon_phase_partition (clk : clock) (p : Q) :
  (0 <= p)%Q -> (p < 100)%Q ->
  let k := phase_bin p in
  0 <= k < 8
  /\ (inject_Z k * (25 # 2) <= p)%Q /\ (p < inject_Z (k + 1) * (25 # 2))%Q
  /\ _calculate_moon_phase clk p =
       (age <- _calculate_moon_age clk ;;
        Ok (JDict [ ("name", JStr (nth (Z.to_nat k) phases ""));
                    ("percentage", JFloat p);
                    ("age", JInt age) ]%string))
  /\ ((p == 0)%Q -> nth (Z.to_nat k) phases ""%string = "New Moon"%string)
  /\ ((50 <= p)%Q -> (p < 125 # 2)%Q ->
      nth (Z.to_nat k) phases ""%string = "Full Moon"%string).
Proof.
  intros H0 H100 k.
  assert (Ek : phase_bin p = k) by reflexivity. clearbody k.
  destruct (phase_bin_bounds p H0 H100) as (Hk & Hlo & Hhi).
  rewrite Ek in Hk, Hlo, Hhi.
  repeat split; try tauto.
  - unfold _calculate_moon_phase.
    rewrite (phase_index_is_bin p H0), Ek.
    rewrite (py_index_in_range phases k ""%string);
      [reflexivity | change (Z.of_nat (List.length phases)) with 8; lia
       | unfold ssize_max; lia].
  - intros Hz. replace k with 0; [reflexivity |].
    rewrite <- Ek. symmetry. apply phase_bin_unique.
    + change (inject_Z 0) with 0%Q. lra.
    + change (inject_Z (0 + 1)) with 1%Q. lra.
  - intros H50 H62. replace k with 4; [reflexivity |].
    rewrite <- Ek. symmetry. apply phase_bin_unique.
    + change (inject_Z 4) with 4%Q. lra.
    + change (inject_Z (4 + 1)) with 5%Q. lra.
Qed.

End MoonPhase.

(* ================================================================== *)
(** * Dates: construction, parsing, subtraction *)
(* ================================================================== *)

Section Dates.

Lemma datetime_new_Ok (y m d : Z) (t : datetime) :
  datetime_new y m d = Ok t -> t = Datetime y m d 0 0 0 0 None.
Proof.
  unfold datetime_new. destruct (valid_date y m d); [| discriminate].
  now intros [= <-].
Qed.

Lemma datetime_new_Raise (y m d : Z) (e : exn) :
  datetime_new y m d = Raise e -> is_value_error e = true.
Proof.
  unfold datetime_new. destruct (valid_date y m d); [discriminate |].
  now intros [= <-].
Qed.

(** Whatever [strptime] raises is a [ValueError]. *)
Lemma strptime_Raise (s : string) (e : exn) :
  strptime_Ymd s = Raise e -> is_value_error e = true.
Proof.
  unfold strptime_Ymd. destruct (regex_Ymd s) as [[[[y m] d] [| c rest]] |].
  - apply datetime_new_Raise.
  - now intros [= <-].
  - now intros [= <-].
Qed.

(** What [strptime] returns is a naive midnight. *)
Lemma strptime_Ok (s : string) (t : datetime) :
  strptime_Ymd s = Ok t ->
  exists y m d, t = Datetime y m d 0 0 0 0 None /\ valid_date y m d = true.
Proof.
  unfold strptime_Ymd.
  destruct (regex_Ymd s) as [[[[y m] d] [| c rest]] |]; try discriminate.
  intros Ht. exists y, m, d. split; [now apply datetime_new_Ok |].
  unfold datetime_new in Ht. now destruct (valid_date y m d).
Qed.

(** An aware datetime minus a naive one is a [TypeError]. *)
Lemma sub_aware_naive (a b : datetime) (z : tz) :
  tzinfo a = Some z -> tzinfo b = None ->
  sub a b =
  Raise (Exn TypeError "can't subtract offset-naive and offset-aware datetimes").
Proof. intros Ha Hb. unfold sub. now rewrite Ha, Hb. Qed.

(** Between naive datetimes [days] is the floor of the difference. *)
Lemma sub_naive (a b : datetime) :
  tzinfo a = None -> tzinfo b = None ->
  sub a b = Ok (timedelta_of_micros (wall_micros a - wall_micros b)).
Proof. intros Ha Hb. unfold sub. now rewrite Ha, Hb. Qed.

Lemma astimezone_Ok `{Pytz} (zone : string) (t t' : datetime) :
  astimezone zone t = Ok t' -> tzinfo t' = Some (Tz zone (tz_offset zone t)).
Proof.
  unfold astimezone. intros Ht. returned Ht. now injection Ht as <-.
Qed.

End Dates.

(* ================================================================== *)
(** * The Omer day and the Hebrew-date calculator *)
(* ================================================================== *)

Section HebrewDate.

Context `{Pytz} `{HebrewCal}.

(** On an aware datetime the Omer computation raises: [ValueError] when
    April 15 of the year cannot be built, [TypeError] at the subtraction
    otherwise. *)
Lemma calculate_omer_day_aware (date : datetime) (z : tz) :
  tzinfo date = Some z ->
  exists e, _calculate_omer_day date = Raise e.
Proof.
  intros Hz. unfold _calculate_omer_day.
  destruct (datetime_new (PyDatetime.year date) 4 15) as [start | e] eqn:Hstart.
  - apply datetime_new_Ok in Hstart. subst start. cbn [bind].
    rewrite (sub_aware_naive date (Datetime (PyDatetime.year date) 4 15 0 0 0 0 None) z Hz eq_refl).
    cbn [bind]. eauto.
  - cbn [bind]. eauto.
Qed.

(** On a naive datetime of a year 1..9999 it is the rule of the spec, with
    [days] the floor of the time since midnight of April 15. *)
Lemma calculate_omer_day_naive (date : datetime) :
  tzinfo date = None -> 1 <= PyDatetime.year date <= 9999 ->
  let start := Datetime (PyDatetime.year date) 4 15 0 0 0 0 None in
  let days := (wall_micros date - wall_micros start) / day_micros in
  _calculate_omer_day date =
  Ok (if (0 <=? days) && (days <? 49) then Some (days + 1) else None).
Proof.
  intros Hnaive Hyear. unfold _calculate_omer_day, datetime_new, valid_date.
  replace (1 <=? PyDatetime.year date) with true by (symmetry; apply Z.leb_le; lia).
  replace (PyDatetime.year date <=? 9999) with true by (symmetry; apply Z.leb_le; lia).
  cbn [andb Z.leb Z.compare Pos.compare Pos.compare_cont].
  replace (15 <=? _days_in_month (PyDatetime.year date) 4) with true.
  - cbn [bind].
    rewrite (sub_naive date (Datetime (PyDatetime.year date) 4 15 0 0 0 0 None) Hnaive eq_refl).
    reflexivity.
  - unfold _days_in_month. cbn. reflexivity.
Qed.

(** The [try] block never reaches its result: the date is made aware before
    the Omer day is computed from it. *)
Lemma hebrew_date_try_raises (self : HebrewDateCalculator) (date : datetime) :
  exists e, hebrew_date_try self date = Raise e.
Proof.
  unfold hebrew_date_try.
  destruct (astimezone (hd_israel_tz self) date) as [local | e] eqn:Hlocal;
    cbn [bind]; [| eauto].
  apply astimezone_Ok in Hlocal.
  destruct (from_gregorian _ _ _) as [hd | e]; cbn [bind]; [| eauto].
  destruct (calculate_omer_day_aware local _ Hlocal) as [e He].
  rewrite He. cbn [bind]. eauto.
Qed.

(** When both libraries answer, the message is that of the subtraction. *)
Lemma hebrew_date_try_TypeError (self : HebrewDateCalculator) (date w : datetime)
  (hd : HebrewDate) :
  tz_wall (hd_israel_tz self) date = Ok w ->
  1 <= PyDatetime.year w <= 9999 ->
  from_gregorian (PyDatetime.year w) (PyDatetime.month w) (PyDatetime.day w) = Ok hd ->
  hebrew_date_try self date =
  Raise (Exn TypeError "can't subtract offset-naive and offset-aware datetimes").
Proof.
  intros Hw Hyear Hhd. unfold hebrew_date_try, astimezone.
  rewrite Hw. cbn [bind PyDatetime.year PyDatetime.month PyDatetime.day].
  rewrite Hhd. cbn [bind].
  unfold _calculate_omer_day, datetime_new, valid_date.
  cbn [PyDatetime.year].
  replace (1 <=? PyDatetime.year w) with true by (symmetry; apply Z.leb_le; lia).
  replace (PyDatetime.year w <=? 9999) with true by (symmetry; apply Z.leb_le; lia).
  reflexivity.
Qed.

(** A call that misses the cache returns an error body and leaves the
    calculator as it was. *)
Lemma get_hebrew_date_miss (self : HebrewDateCalculator) (clk : clock)
  (date : datetime) :
  TTLCache.contains (hd_cache self) (monotonic clk) (strftime_Ymd date) = false ->
  exists msg, get_hebrew_date self clk date = (Ok (error_body msg), self).
Proof.
  intros Hmiss. unfold get_hebrew_date. rewrite Hmiss.
  destruct (hebrew_date_try_raises self date) as [e He]. rewrite He. eauto.
Qed.

(** C1, at the date 2024-04-20.  The Omer rule gives the parsed date the
    value 6 (five whole days after April 15), yet the handler, on a fresh
    calculator and whatever the libraries answer, returns an error body,
    which has no [omer_day], and leaves the calculator unchanged. *)
Theorem hebrew_date_handler_drops_omer_day (size : nat) (ttl : Z) (clk : clock) :
  let calc := HebrewDateCalculator_init size ttl in
  (date <- strptime_Ymd "2024-04-20" ;; _calculate_omer_day date) = Ok (Some 6)
  /\ exists msg,
       torah.get_hebrew_date calc clk "2024-04-20" = (Ok (error_body msg), calc)
       /\ body_field (error_body msg) "omer_day" = None.
Proof.
  intros calc. split; [reflexivity |].
  unfold torah.get_hebrew_date.
  change (strptime_Ymd "2024-04-20") with (Ok (Datetime 2024 4 20 0 0 0 0 None)).
  destruct (get_hebrew_date_miss calc clk (Datetime 2024 4 20 0 0 0 0 None))
    as [msg Hmsg]; [reflexivity |].
  exists msg. rewrite Hmsg. split; reflexivity.
Qed.

End HebrewDate.

Section OmerWindow.

Lemma valid_date_bounds (y m d : Z) :
  valid_date y m d = true ->
  1 <= y <= 9999 /\ 1 <= m <= 12 /\ 1 <= d <= _days_in_month y m.
Proof.
  unfold valid_date. intros Hv.
  repeat (apply andb_prop in Hv; destruct Hv as [Hv ?]).
  repeat match goal with
  | Hle : (_ <=? _) = true |- _ => apply Z.leb_le in Hle
  end.
  lia.
Qed.

Lemma wall_micros_midnight (y m d : Z) :
  wall_micros (Datetime y m d 0 0 0 0 None) = _ymd2ord y m d * day_micros.
Proof.
  unfold wall_micros, day_micros.
  cbn [PyDatetime.year PyDatetime.month PyDatetime.day hour minute second
       microsecond].
  lia.
Qed.

(** At midnight the day count is the difference of the ordinals. *)
Lemma omer_day_at_midnight (y m d : Z) :
  valid_date y m d = true ->
  let n := _ymd2ord y m d - _ymd2ord y 4 15 in
  _calculate_omer_day (Datetime y m d 0 0 0 0 None)
  = Ok (if (0 <=? n) && (n <? 49) then Some (n + 1) else None).
Proof.
  intros Hv n. destruct (valid_date_bounds y m d Hv) as (Hy & _ & _).
  rewrite (calculate_omer_day_naive (Datetime y m d 0 0 0 0 None) eq_refl Hy).
  cbn [PyDatetime.year]. rewrite !wall_micros_midnight.
  replace (_ymd2ord y m d * day_micros - _ymd2ord y 4 15 * day_micros)
    with (n * day_micros) by (unfold n; lia).
  rewrite Z.div_mul by (unfold day_micros; lia). reflexivity.
Qed.

(** The Omer rule on civil dates.  For a date that exists, taken at its
    naive midnight, the Omer day is the number of days since April 15 of the
    same year plus one from April 15 to June 2, and [None] on any other
    day of the year. *)
Theorem omer_day_window (y m d : Z) :
  valid_date y m d = true ->
  let n := _ymd2ord y m d - _ymd2ord y 4 15 in
  let in_window := (m = 4 /\ 15 <= d) \/ m = 5 \/ (m = 6 /\ d <= 2) in
  (in_window ->
   0 <= n < 49
   /\ _calculate_omer_day (Datetime y m d 0 0 0 0 None) = Ok (Some (n + 1)))
  /\ (~ in_window -> _calculate_omer_day (Datetime y m d 0 0 0 0 None) = Ok None).
Proof.
  intros Hv n in_window.
  rewrite (omer_day_at_midnight y m d Hv). fold n.
  destruct (valid_date_bounds y m d Hv) as (Hy & Hm & Hd).
  assert (Hn : n = _days_before_month y m + d - (_days_before_month y 4 + 15))
    by (unfold n, _ymd2ord; lia).
  clearbody n. unfold in_window. clear in_window.
  assert (Hcases : m = 1 \/ m = 2 \/ m = 3 \/ m = 4 \/ m = 5 \/ m = 6 \/ m = 7
                   \/ m = 8 \/ m = 9 \/ m = 10 \/ m = 11 \/ m = 12) by lia.
  unfold _days_before_month, _days_in_month in *.
  repeat (destruct Hcases as [-> | Hcases]); try subst m;
    repeat match goal with
    | Hm' : context [Z.to_nat (Zpos ?p)] |- _ =>
        let v := eval vm_compute in (Z.to_nat (Zpos p)) in
        change (Z.to_nat (Zpos p)) with v in Hm'
    end;
    destruct (_is_leap y);
    cbn [nth andb Z.ltb Z.eqb Z.compare Pos.compare Pos.compare_cont Pos.eqb]
      in Hn, Hd;
    (split; [ intros Hin; assert (Hr : 0 <= n < 49) by lia;
              split; [exact Hr |];
              destruct (Z.leb_spec 0 n); [| lia];
              destruct (Z.ltb_spec n 49); [reflexivity | lia]
            | intros Hout;
              destruct (Z.leb_spec 0 n); [| reflexivity];
              destruct (Z.ltb_spec n 49); [| reflexivity];
              exfalso; apply Hout; lia ]).
Qed.

(** The last day of the window, 2 June 2024, is day 49. *)
Lemma omer_day_window_witness :
  _calculate_omer_day (Datetime 2024 6 2 0 0 0 0 None) = Ok (Some 49).
Proof.
  destruct (omer_day_window 2024 6 2 eq_refl) as [Hin _].
  destruct Hin as [_ Hday]; [right; right; split; [reflexivity | lia] |].
  exact Hday.
Defined.

End OmerWindow.

Section HebrewDateOfJune.

Context `{Pytz} `{HebrewCal}.

(** By the rule of [_calculate_omer_day] the naive midnight of 1 June 2024
    is day 48: it is 47 whole days after 15 April. *)
Lemma omer_day_of_june_first :
  (date <- strptime_Ymd "2024-06-01" ;; _calculate_omer_day date) = Ok (Some 48).
Proof. reflexivity. Qed.

(** C9, at the date 2024-06-01.  The handler parses the path to the naive
    midnight of 1 June 2024 and hands it to the calculator; on a fresh
    calculator, and whatever the libraries answer, what comes back is an
    error body, which has none of [hebrew_day], [hebrew_month],
    [hebrew_year], [is_holiday], [parsha] and [omer_day], and the calculator
    is left unchanged. *)
Theorem hebrew_date_handler_fails_on_june_first (size : nat) (ttl : Z) (clk : clock) :
  let calc := HebrewDateCalculator_init size ttl in
  strptime_Ymd "2024-06-01" = Ok (Datetime 2024 6 1 0 0 0 0 None)
  /\ exists msg,
       torah.get_hebrew_date calc clk "2024-06-01" = (Ok (error_body msg), calc)
       /\ body_field (error_body msg) "hebrew_day" = None
       /\ body_field (error_body msg) "hebrew_month" = None
       /\ body_field (error_body msg) "hebrew_year" = None
       /\ body_field (error_body msg) "is_holiday" = None
       /\ body_field (error_body msg) "parsha" = None
       /\ body_field (error_body msg) "omer_day" = None.
Proof.
  intros calc. split; [reflexivity |].
  unfold torah.get_hebrew_date.
  change (strptime_Ymd "2024-06-01") with (Ok (Datetime 2024 6 1 0 0 0 0 None)).
  destruct (get_hebrew_date_miss calc clk (Datetime 2024 6 1 0 0 0 0 None))
    as [msg Hmsg]; [reflexivity |].
  exists msg. rewrite Hmsg. repeat split.
Qed.

(** With libraries that answer, the body for 2024-06-01 is the error of the
    subtraction of a naive from an aware datetime. *)
Lemma hebrew_date_of_june_first_is_error :
  let calc := HebrewDateCalculator_init 1000 3600 in
  let body :=
    error_body "can't subtract offset-naive and offset-aware datetimes" in
  @torah.get_hebrew_date Stub.pytz Stub.calendar calc Stub.noon "2024-06-01"
  = (Ok body, calc)
  /\ body_field body "hebrew_day" = None
  /\ body_field body "omer_day" = None.
Proof. split; [reflexivity | split; reflexivity]. Qed.

End HebrewDateOfJune.

(* ================================================================== *)
(** * Malformed dates at the handlers *)
(* ================================================================== *)

Section MalformedDates.

Context `{FloatRepr} `{Pytz} `{HebrewCal} `{Ephem} `{Astral}.

(** The two handlers of [torah.py] answer a date that does not parse with
    the invalid-format body, and touch no calculator. *)
Lemma torah_hebrew_date_malformed (calc : HebrewDateCalculator) (clk : clock)
  (date : string) (e : exn) :
  strptime_Ymd date = Raise e ->
  torah.get_hebrew_date calc clk date = (Ok invalid_date_format, calc).
Proof.
  intros Hbad. unfold torah.get_hebrew_date, except_ValueError.
  rewrite Hbad. cbn [fst snd]. now rewrite (strptime_Raise date e Hbad).
Qed.

Lemma torah_astronomy_malformed (calc : AstronomyCalculator) (clk : clock)
  (date : string) (latitude longitude : Q) (e : exn) :
  strptime_Ymd date = Raise e ->
  torah.get_astronomy_data calc clk date latitude longitude
  = (Ok invalid_date_format, calc).
Proof.
  intros Hbad. unfold torah.get_astronomy_data, except_ValueError.
  rewrite Hbad. cbn [fst snd]. now rewrite (strptime_Raise date e Hbad).
Qed.

(** The handler of [prayer.py] has no [try]: the parse failure leaves it as
    it was raised. *)
Lemma daily_schedule_malformed (clk : clock) (latitude longitude : Q)
  (date : string) (e : exn) :
  strptime_Ymd date = Raise e ->
  prayer.get_daily_prayer_schedule clk latitude longitude (Some date) = Raise e.
Proof.
  intros Hbad. unfold prayer.get_daily_prayer_schedule. now rewrite Hbad.
Qed.

(** C5, at the date string 2024-13-40.  The hebrew-date and astronomy
    handlers return the invalid-format body; the daily-schedule handler
    returns nothing: the [ValueError] of the parse propagates out of it. *)
Theorem daily_schedule_propagates_parse_failure
  (hcalc : HebrewDateCalculator) (acalc : AstronomyCalculator) (clk : clock)
  (latitude longitude : Q) :
  torah.get_hebrew_date hcalc clk "2024-13-40" = (Ok invalid_date_format, hcalc)
  /\ torah.get_astronomy_data acalc clk "2024-13-40" latitude longitude
     = (Ok invalid_date_format, acalc)
  /\ prayer.get_daily_prayer_schedule clk latitude longitude (Some "2024-13-40"%string)
     = Raise (Exn ValueError
                "time data '2024-13-40' does not match format '%Y-%m-%d'").
Proof.
  assert (Hbad : strptime_Ymd "2024-13-40"
                 = Raise (Exn ValueError
                            "time data '2024-13-40' does not match format '%Y-%m-%d'"))
    by reflexivity.
  split; [exact (torah_hebrew_date_malformed hcalc clk _ _ Hbad) |].
  split; [exact (torah_astronomy_malformed acalc clk _ latitude longitude _ Hbad) |].
  exact (daily_schedule_malformed clk latitude longitude _ _ Hbad).
Qed.

(** The handlers of [torah.py] on any date string that does not parse: both
    return the invalid-format body and hand the calculators back as they
    were. *)
Theorem torah_handlers_reject_malformed_dates
  (hcalc : HebrewDateCalculator) (acalc : AstronomyCalculator) (clk : clock)
  (date : string) (latitude longitude : Q) (e : exn) :
  strptime_Ymd date = Raise e ->
  torah.get_hebrew_date hcalc clk date = (Ok invalid_date_format, hcalc)
  /\ torah.get_astronomy_data acalc clk date latitude longitude
     = (Ok invalid_date_format, acalc).
Proof.
  intros Hbad. split.
  - exact (torah_hebrew_date_malformed hcalc clk date e Hbad).
  - exact (torah_astronomy_malformed acalc clk date latitude longitude e Hbad).
Qed.

End MalformedDates.

(* ================================================================== *)
(** * The cache: capacity and expiry *)
(* ================================================================== *)

Section Cache.

Import TTLCache.

Lemma trim_length (m : nat) (s : list entry) : (List.length (trim m s) <= m)%nat.
Proof. unfold trim. rewrite length_skipn. lia. Qed.

Lemma In_skipn {A : Type} (n : nat) (l : list A) (x : A) :
  In x (skipn n l) -> In x l.
Proof.
  intros Hx. rewrite <- (firstn_skipn n l). apply in_or_app. now right.
Qed.

(** What the store holds after a [put]: the new entry, or an entry that was
    there, was live, and has another key. *)
Lemma In_store_put (c : t) (now : Z) (k : string) (v : json) (e : entry) :
  In e (store (put c now k v)) ->
  e = Entry k v now
  \/ (In e (store c) /\ live (ttl c) now e = true /\ String.eqb (key e) k = false).
Proof.
  unfold put. cbn [store]. intros He.
  apply In_skipn, in_app_or in He. destruct He as [He | [He | []]].
  - right. apply filter_In in He. destruct He as [He Hk].
    apply filter_In in He. destruct He as [He Hl].
    repeat split; auto. now apply negb_true_iff.
  - now left.
Qed.

Lemma put_size (c : t) (now : Z) (k : string) (v : json) :
  (size (put c now k v) <= maxsize c)%nat.
Proof. unfold size, put. cbn [store]. apply trim_length. Qed.

Lemma put_config (c : t) (now : Z) (k : string) (v : json) :
  maxsize (put c now k v) = maxsize c /\ ttl (put c now k v) = ttl c.
Proof. split; reflexivity. Qed.

Lemma put_all_config (ops : list (Z * string * json)) (c : t) :
  maxsize (put_all c ops) = maxsize c /\ ttl (put_all c ops) = ttl c.
Proof.
  revert c. induction ops as [| [[now k] v] ops IH]; intros c; [now split |].
  cbn [put_all fold_left]. destruct (IH (put c now k v)) as [Hm Ht].
  split; [exact Hm | exact Ht].
Qed.

(** No run of insertions takes a store that is within bounds out of them. *)
Lemma put_all_size (ops : list (Z * string * json)) (c : t) :
  (size c <= maxsize c)%nat -> (size (put_all c ops) <= maxsize c)%nat.
Proof.
  revert c. induction ops as [| [[now k] v] ops IH]; intros c Hc; [exact Hc |].
  exact (IH (put c now k v) (put_size c now k v)).
Qed.

Lemma lookup_Some (k : string) (s : list entry) (e : entry) :
  lookup k s = Some e -> In e s /\ key e = k.
Proof.
  unfold lookup. intros He. apply find_some in He. destruct He as [Hin Hk].
  split; [exact Hin | now apply String.eqb_eq].
Qed.

(** A stored entry whose age has reached the TTL is not served. *)
Lemma get_expired (c : t) (now : Z) (k : string) (e : entry) :
  lookup k (store c) = Some e -> ttl c <= now - inserted e ->
  get c now k = None.
Proof.
  intros He Hage. unfold get. rewrite He. unfold live.
  destruct (Z.ltb_spec (now - inserted e) (ttl c)); [lia | reflexivity].
Qed.

(** What [get] serves is a stored entry younger than the TTL. *)
Lemma get_Some (c : t) (now : Z) (k : string) (v : json) :
  get c now k = Some v ->
  exists e, In e (store c) /\ key e = k /\ value e = v
            /\ now - inserted e < ttl c.
Proof.
  unfold get. destruct (lookup k (store c)) as [e |] eqn:He; [| discriminate].
  unfold live. destruct (Z.ltb_spec (now - inserted e) (ttl c)); [| discriminate].
  intros [= <-]. apply lookup_Some in He. destruct He as [Hin Hk]. eauto.
Qed.

(** After [put c t0 k v], the only entry under [k] is the one just made. *)
Lemma lookup_put (c : t) (t0 : Z) (k : string) (v : json) (e : entry) :
  lookup k (store (put c t0 k v)) = Some e -> e = Entry k v t0.
Proof.
  intros He. apply lookup_Some in He. destruct He as [Hin Hk].
  apply In_store_put in Hin. destruct Hin as [-> | (_ & _ & Hne)]; [reflexivity |].
  apply String.eqb_neq in Hne. contradiction.
Qed.

Lemma lookup_app (k : string) (l1 l2 : list entry) :
  lookup k l1 = None -> lookup k (l1 ++ l2) = lookup k l2.
Proof.
  unfold lookup. induction l1 as [| e l1 IH]; cbn; [reflexivity |].
  destruct (String.eqb (key e) k); [discriminate | exact IH].
Qed.

(** With room for one entry, what was just put is served until it expires. *)
Lemma get_put_same (c : t) (now now' : Z) (k : string) (v : json) :
  (0 < maxsize c)%nat -> now' - now < ttl c ->
  get (put c now k v) now' k = Some v.
Proof.
  intros Hroom Hage. unfold get, put. cbn [store ttl].
  set (others := filter (fun e => negb (String.eqb (key e) k))
                   (filter (live (ttl c) now) (store c))).
  unfold trim. rewrite length_app. cbn [List.length].
  rewrite skipn_app.
  replace (List.length others + 1 - maxsize c - List.length others)%nat
    with 0%nat by lia.
  cbn [skipn]. rewrite lookup_app.
  - unfold lookup. cbn [find key]. rewrite String.eqb_refl.
    unfold live. cbn [inserted value].
    destruct (Z.ltb_spec (now' - now) (ttl c)); [reflexivity | lia].
  - destruct (lookup k (skipn _ others)) as [e |] eqn:He; [| reflexivity].
    apply lookup_Some in He. destruct He as [Hin Hk].
    apply In_skipn in Hin. unfold others in Hin.
    apply filter_In in Hin. destruct Hin as [_ Hne].
    rewrite Hk, String.eqb_refl in Hne. discriminate.
Qed.

(** C6.  A [put] never leaves more than [maxSize] entries in the store, so
    no run of insertions into a fresh cache does, however many distinct keys
    it brings; and a key inserted at [t0] is absent from [get] at any [now]
    with [now - t0 >= ttlSeconds], as is any key whose stored entry is that
    old. *)
Theorem cache_is_bounded_and_expires (c : t) (ops : list (Z * string * json))
  (t0 now : Z) (k : string) (v : json) :
  ttl c <= now - t0 ->
  (size (put c t0 k v) <= maxsize c)%nat
  /\ (size (put_all (empty (maxsize c) (ttl c)) ops) <= maxsize c)%nat
  /\ get (put c t0 k v) now k = None
  /\ (forall e, lookup k (store c) = Some e -> inserted e <= t0 ->
      get c now k = None).
Proof.
  intros Hage. split; [apply put_size |].
  split; [apply (put_all_size ops (empty (maxsize c) (ttl c))); cbn; lia |].
  split.
  - destruct (lookup k (store (put c t0 k v))) as [e |] eqn:He.
    + apply (get_expired _ now k e He).
      apply lookup_put in He. subst e. cbn [inserted]. exact Hage.
    + unfold get. now rewrite He.
  - intros e He Hold. apply (get_expired c now k e He). lia.
Qed.

(** Three keys into a cache of two, then a read an hour later. *)
Lemma cache_is_bounded_and_expires_witness :
  let c := put_all (empty 2 3600) [(0, "a", JNull); (1, "b", JNull)]%string in
  (size (put c 2 "c" JNull) <= 2)%nat
  /\ get (put c 2 "c" JNull) 3602 "c" = None.
Proof.
  intros c.
  assert (Hage : ttl c <= 3602 - 2) by (cbn; lia).
  destruct (cache_is_bounded_and_expires c [] 2 3602 "c" JNull Hage)
    as (Hsize & _ & Hget & _).
  split; [exact Hsize | exact Hget].
Defined.

End Cache.

(* ================================================================== *)
(** * What the caches of the calculators hold *)
(* ================================================================== *)

Section CacheContents.

Variable P : json -> Prop.

Lemma stores_only_empty (size : nat) (ttl : Z) :
  stores_only P (TTLCache.empty size ttl).
Proof. constructor. Qed.

Lemma stores_only_put (c : TTLCache.t) (now : Z) (k : string) (v : json) :
  stores_only P c -> P v -> stores_only P (TTLCache.put c now k v).
Proof.
  unfold stores_only. rewrite !Forall_forall. intros Hc Hv e He.
  apply In_store_put in He. destruct He as [-> | (He & _)]; [exact Hv | now apply Hc].
Qed.

Lemma stores_only_getitem (c : TTLCache.t) (now : Z) (k : string) (v : json) :
  stores_only P c -> TTLCache.getitem c now k = Ok v -> P v.
Proof.
  unfold stores_only, TTLCache.getitem. rewrite Forall_forall. intros Hc Hv.
  destruct (TTLCache.get c now k) as [v' |] eqn:Hget; [| discriminate].
  injection Hv as ->.
  apply get_Some in Hget. destruct Hget as (e & Hin & _ & <- & _). now apply Hc.
Qed.

(** A key that is in the cache can be read from it. *)
Lemma getitem_of_contains (c : TTLCache.t) (now : Z) (k : string) :
  TTLCache.contains c now k = true ->
  exists v, TTLCache.getitem c now k = Ok v.
Proof.
  unfold TTLCache.contains, TTLCache.getitem.
  destruct (TTLCache.get c now k) as [v |]; [eauto | discriminate].
Qed.

End CacheContents.

(* ================================================================== *)
(** * The astronomy calculator *)
(* ================================================================== *)

Section Astronomy.

Context `{FloatRepr} `{Pytz} `{HebrewCal} `{Ephem} `{Astral}.

Lemma get_astronomical_events_nil (date : datetime) :
  _get_astronomical_events date = [].
Proof. reflexivity. Qed.

(** A result of the [try] block is a snapshot: no ["error"] key, no event. *)
Lemma astronomical_data_try_Ok (self : AstronomyCalculator) (clk : clock)
  (date : datetime) (latitude longitude : Q) (body : json) :
  astronomical_data_try self clk date latitude longitude = Ok body ->
  error_shaped body = false /\ no_events body.
Proof.
  unfold astronomical_data_try. intros Hbody. returned Hbody.
  injection Hbody as <-. split; reflexivity.
Qed.

(** A result of the [try] block of the Hebrew-date calculator has no
    ["error"] key. *)
Lemma hebrew_date_try_Ok (self : HebrewDateCalculator) (date : datetime)
  (body : json) :
  hebrew_date_try self date = Ok body -> error_shaped body = false.
Proof.
  unfold hebrew_date_try. intros Hbody. returned Hbody.
  injection Hbody as <-. reflexivity.
Qed.

(** Two snapshots of one date carry the same prayer times, whatever the
    coordinates they were asked for. *)
Lemma snapshots_share_prayer_times (self : AstronomyCalculator) (clk : clock)
  (date : datetime) (latitude longitude latitude' longitude' : Q)
  (body body' : json) :
  astronomical_data_try self clk date latitude longitude = Ok body ->
  astronomical_data_try self clk date latitude' longitude' = Ok body' ->
  body_field body "prayer_times" = body_field body' "prayer_times".
Proof.
  unfold astronomical_data_try. intros Hb Hb'.
  destruct (astimezone (israel_tz self) date) as [local | e]; [| discriminate].
  cbn [bind] in Hb, Hb'.
  returned Hb. returned Hb'.
  injection Hb as <-. injection Hb' as <-. cbn.
  repeat match goal with
  | E : _calculate_prayer_times _ _ _ _ = _ |- _ =>
      unfold _calculate_prayer_times in E
  end.
  congruence.
Qed.

(** C4.  The prayer times of the calculator do not depend on the latitude
    and longitude of the call: they are computed for the observer of the
    calculator's own location, so two snapshots of one date that differ in
    the coordinates only carry the same [prayer_times]. *)
Theorem prayer_times_ignore_coordinates (self : AstronomyCalculator)
  (clk : clock) (date : datetime) (latitude longitude latitude' longitude' : Q) :
  _calculate_prayer_times self date latitude longitude
  = _calculate_prayer_times self date latitude' longitude'
  /\ match astronomical_data_try self clk date latitude longitude,
           astronomical_data_try self clk date latitude' longitude' with
     | Ok body, Ok body' =>
         body_field body "prayer_times" = body_field body' "prayer_times"
     | _, _ => True
     end.
Proof.
  split; [reflexivity |].
  destruct (astronomical_data_try self clk date latitude longitude)
    as [body | e] eqn:Hb; [| exact I].
  destruct (astronomical_data_try self clk date latitude' longitude')
    as [body' | e'] eqn:Hb'; [| exact I].
  exact (snapshots_share_prayer_times self clk date latitude longitude
           latitude' longitude' body body' Hb Hb').
Qed.

(** C7.  Both eclipse predicates are false and the events list is empty for
    every date; and as long as the cache holds event-free snapshots only,
    which it does when fresh, a call returns an error body or a snapshot
    whose [astronomical_events] is the empty list, and keeps the cache so. *)
Theorem no_eclipse_is_ever_reported (self : AstronomyCalculator) (clk : clock)
  (date : datetime) (latitude longitude : Q) :
  stores_only no_events (cache self) ->
  let r := get_astronomical_data self clk date latitude longitude in
  _is_lunar_eclipse date = false
  /\ _is_solar_eclipse date = false
  /\ _get_astronomical_events date = []
  /\ (exists body, fst r = Ok body /\ (error_shaped body = true \/ no_events body))
  /\ stores_only no_events (cache (snd r)).
Proof.
  intros Hcache r. do 3 (split; [reflexivity |]).
  unfold r, get_astronomical_data.
  destruct (TTLCache.contains _ _ _) eqn:Hhit.
  - cbn [fst snd]. split; [| exact Hcache].
    destruct (getitem_of_contains _ _ _ Hhit) as [v Hv].
    exists v. split; [exact Hv |]. right.
    exact (stores_only_getitem no_events _ _ _ _ Hcache Hv).
  - destruct (astronomical_data_try self clk date latitude longitude)
      as [body | e] eqn:Htry; cbn [fst snd cache].
    + apply astronomical_data_try_Ok in Htry. destruct Htry as [_ Hev].
      split; [eauto |]. now apply stores_only_put.
    + split; [| exact Hcache]. exists (error_body (exn_msg e)). now split; [| left].
Qed.

(** C10.  A call of either calculator that returns an error-shaped body
    leaves the calculator, and with it the cache, as it was; and a cache
    that holds no error-shaped body holds none after the call, so a later
    call with the same key has no cached error to return. *)
Theorem failed_calls_leave_the_cache (hcalc : HebrewDateCalculator)
  (acalc : AstronomyCalculator) (clk : clock) (date : datetime)
  (latitude longitude : Q) :
  let h := get_hebrew_date hcalc clk date in
  let a := get_astronomical_data acalc clk date latitude longitude in
  let sound := fun body => error_shaped body = false in
  (returns_error (fst h) = true -> snd h = hcalc)
  /\ (returns_error (fst a) = true -> snd a = acalc)
  /\ (stores_only sound (hd_cache hcalc) -> stores_only sound (hd_cache (snd h)))
  /\ (stores_only sound (cache acalc) -> stores_only sound (cache (snd a))).
Proof.
  intros h a sound. unfold h, a, get_hebrew_date, get_astronomical_data.
  repeat split.
  - destruct (TTLCache.contains _ _ _); [reflexivity |].
    destruct (hebrew_date_try hcalc date) as [body | e] eqn:Htry; [| reflexivity].
    cbn [fst snd returns_error]. rewrite (hebrew_date_try_Ok _ _ _ Htry). discriminate.
  - destruct (TTLCache.contains _ _ _); [reflexivity |].
    destruct (astronomical_data_try acalc clk date latitude longitude)
      as [body | e] eqn:Htry; [| reflexivity].
    cbn [fst snd returns_error].
    destruct (astronomical_data_try_Ok _ _ _ _ _ _ Htry) as [Hne _].
    rewrite Hne. discriminate.
  - intros Hc. destruct (TTLCache.contains _ _ _); [exact Hc |].
    destruct (hebrew_date_try hcalc date) as [body | e] eqn:Htry; [| exact Hc].
    cbn [snd hd_cache]. apply stores_only_put; [exact Hc |].
    exact (hebrew_date_try_Ok _ _ _ Htry).
  - intros Hc. destruct (TTLCache.contains _ _ _); [exact Hc |].
    destruct (astronomical_data_try acalc clk date latitude longitude)
      as [body | e] eqn:Htry; [| exact Hc].
    cbn [snd cache]. apply stores_only_put; [exact Hc |].
    exact (proj1 (astronomical_data_try_Ok _ _ _ _ _ _ Htry)).
Qed.

(** Caching.  When a call misses the cache and its computation succeeds,
    the call returns the snapshot and stores it; the next call on the
    calculator as that call left it, with the same date and coordinates and
    made before the TTL has run out, returns that same snapshot from the
    cache, without changing the calculator again (the cache having room for
    at least one entry).  A call for another key in between may push the
    entry out of a full cache; nothing is stated for that case. *)
Theorem snapshot_is_served_from_cache (self : AstronomyCalculator)
  (clk clk' : clock) (date : datetime) (latitude longitude : Q) (body : json) :
  (0 < TTLCache.maxsize (cache self))%nat ->
  TTLCache.contains (cache self) (monotonic clk)
    (astronomy_cache_key date latitude longitude) = false ->
  astronomical_data_try self clk date latitude longitude = Ok body ->
  monotonic clk' - monotonic clk < TTLCache.ttl (cache self) ->
  let first := get_astronomical_data self clk date latitude longitude in
  fst first = Ok body
  /\ get_astronomical_data (snd first) clk' date latitude longitude
     = (Ok body, snd first).
Proof.
  intros Hroom Hmiss Htry Hage first.
  assert (Hfirst : first =
                   (Ok body,
                    {| cache := TTLCache.put (cache self) (monotonic clk)
                                  (astronomy_cache_key date latitude longitude) body;
                       israel_tz := israel_tz self;
                       location := location self |})).
  { unfold first, get_astronomical_data. now rewrite Hmiss, Htry. }
  rewrite Hfirst. cbn [fst snd]. split; [reflexivity |].
  unfold get_astronomical_data, TTLCache.contains, TTLCache.getitem. cbn [cache].
  now rewrite (get_put_same (cache self) (monotonic clk) (monotonic clk') _ body
                 Hroom Hage).
Qed.

End Astronomy.

(* ================================================================== *)
(** * The prayer-time slot table *)
(* ================================================================== *)

Section PrayerTimes.

Context `{Astral}.

(** C8.  Whenever the sun events are available, the table of the calculator
    and the table of the daily-schedule handler both put dawn under [alos],
    the sunrise instant under [sunrise], [talit] and [shacharit], the sunset
    instant under [sunset], [mincha_gedola], [mincha_ketana] and
    [plag_hamincha], and dusk under [tzeit_hakochavim]. *)
Theorem prayer_slots_share_instants (self : AstronomyCalculator) (clk : clock)
  (date : datetime) (latitude longitude : Q) (day : string) (date' : datetime)
  (s s' : SunTimes) :
  sun (observer (location self)) date = Ok s ->
  strptime_Ymd day = Ok date' ->
  sun {| astral.latitude := latitude; astral.longitude := longitude |} date' = Ok s' ->
  (exists tbl,
     _calculate_prayer_times self date latitude longitude = Ok tbl
     /\ slots_share_instants tbl s)
  /\ (exists body tbl,
        prayer.get_daily_prayer_schedule clk latitude longitude (Some day) = Ok body
        /\ body_field body "prayer_times" = Some tbl
        /\ slots_share_instants tbl s').
Proof.
  intros Hs Hday Hs'. split.
  - unfold _calculate_prayer_times. rewrite Hs. cbn [bind].
    eexists. split; [reflexivity |]. repeat split.
  - unfold prayer.get_daily_prayer_schedule. rewrite Hday. cbn [bind].
    unfold observer. cbn [loc_latitude loc_longitude]. rewrite Hs'. cbn [bind].
    eexists. eexists. split; [reflexivity |]. split; [reflexivity |]. repeat split.
Qed.

End PrayerTimes.

(* ================================================================== *)
(** * The theorems on concrete inputs *)
(* ================================================================== *)

Section Examples.

(** A percentage of 55 is Full Moon, 24 days after the new moon of the stub. *)
Lemma moon_phase_partition_witness :
  @_calculate_moon_phase Stub.sky Stub.noon 55
  = Ok (JDict [ ("name", JStr "Full Moon");
                ("percentage", JFloat 55);
                ("age", JInt 24) ]%string).
Proof.
  assert (H0 : (0 <= 55)%Q) by (unfold Qle; cbn; lia).
  assert (H100 : (55 < 100)%Q) by (unfold Qlt; cbn; lia).
  destruct (@moon_phase_partition Stub.sky Stub.noon 55 H0 H100)
    as (_ & _ & _ & Hphase & _).
  exact Hphase.
Defined.

(** With a sun that depends on the latitude, the calculator still gives
    Jerusalem and Reykjavik one table, that of its own location, while the
    daily-schedule handler tells them apart. *)
Example prayer_times_of_two_cities :
  let calc := @AstronomyCalculator_init Stub.almanac 1000 3600 in
  let sunrise_of r :=
    match r with
    | Ok body => body_field body "sunrise"
    | Raise _ => None
    end in
  let schedule_sunrise_of r :=
    match r with
    | Ok body =>
        match body_field body "prayer_times" with
        | Some tbl => body_field tbl "sunrise"
        | None => None
        end
    | Raise _ => None
    end in
  sunrise_of (@_calculate_prayer_times Stub.almanac calc Stub.june_first
                Stub.jerusalem_lat Stub.jerusalem_lon) = Some (JStr "06:00")
  /\ sunrise_of (@_calculate_prayer_times Stub.almanac calc Stub.june_first
                   Stub.reykjavik_lat Stub.reykjavik_lon) = Some (JStr "06:00")
  /\ schedule_sunrise_of
       (@prayer.get_daily_prayer_schedule Stub.almanac Stub.noon
          Stub.jerusalem_lat Stub.jerusalem_lon (Some "2024-06-01"%string))
     = Some (JStr "05:00")
  /\ schedule_sunrise_of
       (@prayer.get_daily_prayer_schedule Stub.almanac Stub.noon
          Stub.reykjavik_lat Stub.reykjavik_lon (Some "2024-06-01"%string))
     = Some (JStr "06:00").
Proof. repeat split. Qed.

(** The slot table of 1 June 2024 at Jerusalem, from the stub almanac. *)
Lemma prayer_slots_share_instants_witness :
  let calc := @AstronomyCalculator_init Stub.almanac 1000 3600 in
  (exists tbl,
     @_calculate_prayer_times Stub.almanac calc Stub.june_first Stub.jerusalem_lat Stub.jerusalem_lon
     = Ok tbl
     /\ body_field tbl "talit" = Some (JStr "06:00")
     /\ body_field tbl "plag_hamincha" = Some (JStr "19:45"))
  /\ (exists body tbl,
        @prayer.get_daily_prayer_schedule Stub.almanac Stub.noon
          Stub.jerusalem_lat Stub.jerusalem_lon (Some "2024-06-01"%string) = Ok body
        /\ body_field body "prayer_times" = Some tbl
        /\ body_field tbl "talit" = Some (JStr "05:00")
        /\ body_field tbl "plag_hamincha" = Some (JStr "19:45")).
Proof.
  intros calc.
  destruct (@prayer_slots_share_instants Stub.almanac calc Stub.noon Stub.june_first
              Stub.jerusalem_lat Stub.jerusalem_lon "2024-06-01" Stub.june_first
              _ _ eq_refl eq_refl eq_refl)
    as ((tbl & Htbl & Hslots) & (body & tbl' & Hbody & Hfield & Hslots')).
  split.
  - exists tbl. split; [exact Htbl |].
    destruct Hslots as (_ & Hrise & Htalit & _ & Hset & _ & _ & Hplag & _).
    split; [rewrite Htalit; exact Hrise | rewrite Hplag; exact Hset].
  - exists body, tbl'. split; [exact Hbody |]. split; [exact Hfield |].
    destruct Hslots' as (_ & Hrise & Htalit & _ & Hset & _ & _ & Hplag & _).
    split; [rewrite Htalit; exact Hrise | rewrite Hplag; exact Hset].
Defined.

(** A fresh calculator under the stubs: the snapshot of 1 June 2024 reports
    no event and is what the cache then holds. *)
Lemma no_eclipse_is_ever_reported_witness :
  let calc := @AstronomyCalculator_init Stub.almanac 1000 3600 in
  let r := @get_astronomical_data Stub.float_repr Stub.pytz Stub.sky Stub.almanac
             calc Stub.noon Stub.june_first Stub.jerusalem_lat Stub.jerusalem_lon in
  (exists body, fst r = Ok body /\ (error_shaped body = true \/ no_events body))
  /\ stores_only no_events (cache (snd r)).
Proof.
  intros calc r.
  destruct (@no_eclipse_is_ever_reported Stub.float_repr Stub.pytz Stub.sky
              Stub.almanac calc Stub.noon Stub.june_first Stub.jerusalem_lat Stub.jerusalem_lon
              (stores_only_empty no_events 1000 3600))
    as (_ & _ & _ & Hbody & Hcache).
  split; [exact Hbody | exact Hcache].
Defined.

(** Both calculators fail on 1 June 2024 and come back unchanged. *)
Lemma failed_calls_leave_the_cache_witness :
  let hcalc := HebrewDateCalculator_init 1000 3600 in
  let acalc := @AstronomyCalculator_init Stub.almanac 1000 3600 in
  snd (@get_hebrew_date Stub.pytz Stub.calendar hcalc Stub.noon Stub.june_first) = hcalc
  /\ snd (@get_astronomical_data Stub.float_repr Stub.pytz Stub.moonless Stub.almanac
            acalc Stub.noon Stub.june_first Stub.jerusalem_lat Stub.jerusalem_lon) = acalc.
Proof.
  intros hcalc acalc.
  destruct (@failed_calls_leave_the_cache Stub.float_repr Stub.pytz Stub.calendar
              Stub.moonless Stub.almanac hcalc acalc Stub.noon Stub.june_first
              Stub.jerusalem_lat Stub.jerusalem_lon)
    as (Hh & Ha & _).
  split; [apply Hh; reflexivity | apply Ha; reflexivity].
Defined.

(** 30 February does not exist. *)
Lemma torah_handlers_reject_malformed_dates_witness :
  let hcalc := HebrewDateCalculator_init 1000 3600 in
  let acalc := @AstronomyCalculator_init Stub.almanac 1000 3600 in
  @torah.get_hebrew_date Stub.pytz Stub.calendar hcalc Stub.noon "2024-02-30"
  = (Ok invalid_date_format, hcalc)
  /\ @torah.get_astronomy_data Stub.float_repr Stub.pytz Stub.sky Stub.almanac
       acalc Stub.noon "2024-02-30" Stub.jerusalem_lat Stub.jerusalem_lon
     = (Ok invalid_date_format, acalc).
Proof.
  intros hcalc acalc.
  exact (@torah_handlers_reject_malformed_dates Stub.float_repr Stub.pytz
           Stub.calendar Stub.sky Stub.almanac hcalc acalc Stub.noon
           "2024-02-30" Stub.jerusalem_lat Stub.jerusalem_lon
           (Exn ValueError "date value out of range") eq_refl).
Defined.

(** A snapshot computed at timer 100 is served again at timer 3699. *)
Lemma snapshot_is_served_from_cache_witness :
  let calc := @AstronomyCalculator_init Stub.almanac 1000 3600 in
  let later := Clock 3699 (Datetime 2024 6 1 13 0 0 0 None) in
  let first := @get_astronomical_data Stub.float_repr Stub.pytz Stub.sky
                 Stub.almanac calc Stub.noon Stub.june_first Stub.jerusalem_lat
                 Stub.jerusalem_lon in
  exists body,
    fst first = Ok body
    /\ @get_astronomical_data Stub.float_repr Stub.pytz Stub.sky Stub.almanac
         (snd first) later Stub.june_first Stub.jerusalem_lat Stub.jerusalem_lon
       = (Ok body, snd first).
Proof.
  intros calc later first.
  destruct (@astronomical_data_try Stub.float_repr Stub.pytz Stub.sky Stub.almanac
              calc Stub.noon Stub.june_first Stub.jerusalem_lat Stub.jerusalem_lon)
    as [body | e] eqn:Htry; [| discriminate Htry].
  exists body.
  apply (@snapshot_is_served_from_cache Stub.float_repr Stub.pytz Stub.sky
           Stub.almanac calc Stub.noon later Stub.june_first Stub.jerusalem_lat
           Stub.jerusalem_lon body).
  - cbn. lia.
  - reflexivity.
  - exact Htry.
  - cbn. lia.
Defined.

End Examples.

(* ================================================================== *)
(** * The zodiac sign of a day: [_get_zodiac] *)
(* ================================================================== *)

Section ZodiacOfTheDay.

Lemma zodiac_index_in_range (n : Z) :
  0 <= n mod 12 < Z.of_nat (List.length zodiac_signs).
Proof. cbn. apply Z.mod_pos_bound. lia. Qed.

(** At midnight of a civil date the sign is the one at index
    [(ordinal - 1) mod 12]. *)
Lemma get_zodiac_at_midnight (y m d : Z) :
  valid_date y m d = true ->
  _get_zodiac (Datetime y m d 0 0 0 0 None)
  = Ok (nth (Z.to_nat ((_ymd2ord y m d - 1) mod 12)) zodiac_signs ""%string).
Proof.
  intros Hv. unfold _get_zodiac.
  change (datetime_new 1 1 1) with (Ok (Datetime 1 1 1 0 0 0 0 None)).
  cbn [bind]. rewrite (sub_naive (Datetime y m d 0 0 0 0 None)
                         (Datetime 1 1 1 0 0 0 0 None) eq_refl eq_refl).
  cbn [bind]. rewrite !wall_micros_midnight.
  unfold timedelta_of_micros. cbn [days].
  change (_ymd2ord 1 1 1) with 1.
  replace (_ymd2ord y m d * day_micros - 1 * day_micros)
    with ((_ymd2ord y m d - 1) * day_micros) by lia.
  rewrite Z.div_mul by (unfold day_micros; lia).
  replace ((_ymd2ord y m d - 1 + 1721425 - 1) mod 12)
    with ((_ymd2ord y m d - 1) mod 12).
  - apply py_index_in_range; [apply zodiac_index_in_range |].
    pose proof (Z.mod_pos_bound (_ymd2ord y m d - 1) 12). unfold ssize_max. lia.
  - replace (_ymd2ord y m d - 1 + 1721425 - 1)
      with (_ymd2ord y m d - 1 + 143452 * 12) by lia.
    now rewrite Z.mod_add by lia.
Qed.

(** The zodiac sign of the Hebrew-date calculator follows the day count, not
    the sun.  At the naive midnight of a civil date the sign is the one at
    index [(ordinal - 1) mod 12] of the list; the next day has the next sign
    of the list, cyclically; two days a multiple of 12 apart have the same
    sign; and on an aware datetime the computation raises [TypeError]. *)
Theorem zodiac_sign_steps_with_the_days (y m d y' m' d' : Z) (z : tz) :
  valid_date y m d = true -> valid_date y' m' d' = true ->
  let sign_of n := nth (Z.to_nat n) zodiac_signs ""%string in
  let i := (_ymd2ord y m d - 1) mod 12 in
  _get_zodiac (Datetime y m d 0 0 0 0 None) = Ok (sign_of i)
  /\ (_ymd2ord y' m' d' = _ymd2ord y m d + 1 ->
      _get_zodiac (Datetime y' m' d' 0 0 0 0 None) = Ok (sign_of ((i + 1) mod 12)))
  /\ ((_ymd2ord y' m' d' - _ymd2ord y m d) mod 12 = 0 ->
      _get_zodiac (Datetime y' m' d' 0 0 0 0 None)
      = _get_zodiac (Datetime y m d 0 0 0 0 None))
  /\ _get_zodiac (Datetime y m d 0 0 0 0 (Some z))
     = Raise (Exn TypeError "can't subtract offset-naive and offset-aware datetimes").
Proof.
  intros Hv Hv' sign_of i.
  rewrite (get_zodiac_at_midnight y m d Hv), (get_zodiac_at_midnight y' m' d' Hv').
  split; [reflexivity |]. split; [| split].
  - intros Hnext. unfold sign_of, i. rewrite Hnext. do 3 f_equal.
    replace (_ymd2ord y m d + 1 - 1) with (_ymd2ord y m d - 1 + 1) by lia.
    now rewrite Z.add_mod_idemp_l by lia.
  - intros Hper. do 3 f_equal.
    set (a := _ymd2ord y m d) in *. set (b := _ymd2ord y' m' d') in *.
    apply Z.mod_divide in Hper; [| lia]. destruct Hper as [k Hk].
    replace (b - 1) with (a - 1 + k * 12) by lia.
    now rewrite Z.mod_add by lia.
  - reflexivity.
Qed.

(** 31 May and 1 June 2024: Leo, then Virgo. *)
Lemma zodiac_sign_steps_with_the_days_witness :
  _get_zodiac (Datetime 2024 5 31 0 0 0 0 None) = Ok "Leo"%string
  /\ _get_zodiac (Datetime 2024 6 1 0 0 0 0 None) = Ok "Virgo"%string.
Proof.
  destruct (zodiac_sign_steps_with_the_days 2024 5 31 2024 6 1 (Tz "Asia/Jerusalem" 10800)
              eq_refl eq_refl) as (Htoday & Hnext & _).
  split; [exact Htoday | exact (Hnext eq_refl)].
Defined.

End ZodiacOfTheDay.

(* ================================================================== *)
(** * The moon phase outside [0, 100) *)
(* ================================================================== *)

Section PhaseOutOfRange.

Context `{FloatRepr} `{Pytz} `{Ephem} `{Astral}.

Lemma py_index_out_of_range {A : Type} (l : list A) (i : Z) :
  fits_index i = true ->
  Z.of_nat (List.length l) <= i \/ i < - Z.of_nat (List.length l) ->
  py_index l i = Raise (Exn IndexError "list index out of range").
Proof.
  intros Hfit Hi. unfold py_index. rewrite Hfit. cbn [negb]. cbv zeta.
  destruct (Z.ltb_spec i 0) as [Hneg | Hpos].
  - destruct (Z.leb_spec 0 (i + Z.of_nat (List.length l))); [lia | reflexivity].
  - destruct (Z.leb_spec 0 i); [| reflexivity].
    destruct (Z.ltb_spec i (Z.of_nat (List.length l))); [lia | reflexivity].
Qed.

(** An index beyond the machine word fails in the conversion, whatever the
    list. *)
Lemma py_index_unfit {A : Type} (l : list A) (i : Z) :
  fits_index i = false ->
  py_index l i = Raise (Exn IndexError "cannot fit 'int' into an index-sized integer").
Proof. intros Hfit. unfold py_index. now rewrite Hfit. Qed.

(** A negative index within the list counts from the end. *)
Lemma py_index_from_end {A : Type} (l : list A) (i : Z) (d : A) :
  - Z.of_nat (List.length l) <= i < 0 -> - ssize_max - 1 <= i ->
  py_index l i = Ok (nth (Z.to_nat (i + Z.of_nat (List.length l))) l d).
Proof.
  intros Hi Hfit. unfold py_index.
  replace (fits_index i) with true
    by (symmetry; apply fits_index_iff; unfold ssize_max in *; lia).
  cbn [negb]. cbv zeta.
  destruct (Z.ltb_spec i 0) as [_ | Hpos]; [| lia].
  destruct (Z.leb_spec 0 (i + Z.of_nat (List.length l))); [| lia].
  destruct (Z.ltb_spec (i + Z.of_nat (List.length l)) (Z.of_nat (List.length l)));
    [| lia].
  cbn [andb].
  destruct (nth_error l (Z.to_nat (i + Z.of_nat (List.length l)))) as [a |] eqn:Hnth.
  - f_equal. symmetry. now apply nth_error_nth.
  - apply nth_error_None in Hnth. lia.
Qed.

(** [int()] keeps a float on its side of an integer bound. *)
Lemma py_int_ge (x : Q) (k : Z) : 0 <= k -> (inject_Z k <= x)%Q -> k <= py_int x.
Proof.
  intros Hk Hx.
  assert (Hx0 : (0 <= x)%Q).
  { eapply Qle_trans; [| exact Hx].
    change 0%Q with (inject_Z 0). now rewrite <- Zle_Qle. }
  rewrite (py_int_nonneg x Hx0). rewrite <- (Qfloor_Z k). now apply Qfloor_resp_le.
Qed.

Lemma py_int_lt (x : Q) (k : Z) : 0 < k -> (x < inject_Z k)%Q -> py_int x < k.
Proof.
  intros Hk Hx. destruct (Qlt_le_dec x 0) as [Hneg | Hpos].
  - rewrite (py_int_neg x) by now apply Qlt_le_weak.
    assert (0 <= Qfloor (- x)); [| lia].
    change 0 with (Qfloor 0). apply Qfloor_resp_le. lra.
  - rewrite (py_int_nonneg x Hpos). rewrite Zlt_Qlt.
    eapply Qle_lt_trans; [apply Qfloor_le | exact Hx].
Qed.

Lemma py_int_opp (x : Q) : py_int (- x) = - py_int x.
Proof.
  destruct (Qlt_le_dec x 0) as [Hneg | Hpos].
  - rewrite (py_int_neg x) by now apply Qlt_le_weak.
    rewrite py_int_nonneg by lra. lia.
  - rewrite (py_int_neg (- x)) by lra. rewrite (py_int_nonneg x Hpos).
    f_equal. apply Qfloor_comp. ring.
Qed.

Lemma phase_index_scale (p : Q) : phase_index p = py_int (p * (2 # 25)).
Proof. unfold phase_index. apply py_int_comp. field. Qed.

(** From 100 percent on, and from -112.5 down, the index is no position of
    the list. *)
Lemma phase_index_outside (p : Q) :
  (100 <= p)%Q \/ (p <= - (225 # 2))%Q ->
  8 <= phase_index p \/ phase_index p < -8.
Proof.
  intros Hout. rewrite phase_index_scale. set (x := (p * (2 # 25))%Q).
  destruct Hout as [Hhi | Hlo].
  - left. apply py_int_ge; [lia |]. change (inject_Z 8) with 8%Q. unfold x. lra.
  - right. assert (9 <= py_int (- x)); [| rewrite py_int_opp in *; lia].
    apply py_int_ge; [lia |]. change (inject_Z 9) with 9%Q. unfold x. lra.
Qed.

(** Below [phase_word_limit], and above its opposite less 12.5, the index
    fits the machine word. *)
Lemma phase_index_fits (p : Q) :
  (- (phase_word_limit + (25 # 2)) < p)%Q -> (p < phase_word_limit)%Q ->
  fits_index (phase_index p) = true.
Proof.
  unfold phase_word_limit. intros Hlo Hhi.
  apply fits_index_iff. rewrite phase_index_scale. set (x := (p * (2 # 25))%Q).
  unfold ssize_max. split.
  - assert (py_int (- x) < 9223372036854775809); [| rewrite py_int_opp in *; lia].
    apply py_int_lt; [lia |].
    change (inject_Z 9223372036854775809) with (9223372036854775809 # 1).
    unfold x. lra.
  - assert (py_int x < 9223372036854775808); [| lia].
    apply py_int_lt; [lia |].
    change (inject_Z 9223372036854775808) with (9223372036854775808 # 1).
    unfold x. lra.
Qed.

(** From [phase_word_limit] on, and from its opposite less 12.5 down, it does
    not. *)
Lemma phase_index_unfit (p : Q) :
  (phase_word_limit <= p)%Q \/ (p <= - (phase_word_limit + (25 # 2)))%Q ->
  fits_index (phase_index p) = false.
Proof.
  unfold phase_word_limit. intros Hout.
  destruct (fits_index (phase_index p)) eqn:Hfit; [exfalso | reflexivity].
  apply fits_index_iff in Hfit. rewrite phase_index_scale in Hfit.
  set (x := (p * (2 # 25))%Q) in Hfit. unfold ssize_max in Hfit.
  destruct Hout as [Hhi | Hlo].
  - assert (9223372036854775808 <= py_int x); [| lia].
    apply py_int_ge; [lia |].
    change (inject_Z 9223372036854775808) with (9223372036854775808 # 1).
    unfold x. lra.
  - assert (9223372036854775809 <= py_int (- x)); [| rewrite py_int_opp in *; lia].
    apply py_int_ge; [lia |].
    change (inject_Z 9223372036854775809) with (9223372036854775809 # 1).
    unfold x. lra.
Qed.

(** From 100 percent on, and from -112.5 down, the lookup raises: with the
    message of the list while the index fits the machine word, with the
    message of the conversion beyond. *)
Lemma phase_lookup_raises (p : Q) :
  (100 <= p)%Q \/ (p <= - (225 # 2))%Q ->
  py_index phases (phase_index p)
  = Raise (Exn IndexError
             (if fits_index (phase_index p)
              then "list index out of range"
              else "cannot fit 'int' into an index-sized integer")).
Proof.
  intros Hout. destruct (fits_index (phase_index p)) eqn:Hfit.
  - apply py_index_out_of_range; [exact Hfit |].
    change (Z.of_nat (List.length phases)) with 8.
    now apply phase_index_outside.
  - now apply py_index_unfit.
Qed.

(** The phase name over the whole line.  A percentage of 100 or more, or of
    -112.5 or less, raises [IndexError]: with the message 'list index out of
    range' while the index fits the machine word (below [phase_word_limit],
    and above its opposite less 12.5), and with the message of the failed
    conversion beyond.  Every percentage in between gets one of the eight
    names, whatever the age of the moon comes to; and between -12.5 and 12.5
    the name is New Moon, since [int()] truncates toward zero. *)
Theorem moon_phase_index_bounds (clk : clock) (p : Q) :
  (((100 <= p)%Q /\ (p < phase_word_limit)%Q)
   \/ ((- (phase_word_limit + (25 # 2)) < p)%Q /\ (p <= - (225 # 2))%Q) ->
   _calculate_moon_phase clk p
   = Raise (Exn IndexError "list index out of range"))
  /\ ((phase_word_limit <= p)%Q \/ (p <= - (phase_word_limit + (25 # 2)))%Q ->
      _calculate_moon_phase clk p
      = Raise (Exn IndexError "cannot fit 'int' into an index-sized integer"))
  /\ ((- (225 # 2) < p)%Q -> (p < 100)%Q ->
      exists name,
        In name phases
        /\ _calculate_moon_phase clk p =
             (age <- _calculate_moon_age clk ;;
              Ok (JDict [ ("name", JStr name);
                          ("percentage", JFloat p);
                          ("age", JInt age) ]%string)))
  /\ ((- (25 # 2) < p)%Q -> (p < 25 # 2)%Q ->
      py_index phases (phase_index p) = Ok "New Moon"%string).
Proof.
  split; [| split; [| split]].
  - intros Hout. unfold _calculate_moon_phase.
    rewrite phase_lookup_raises by (unfold phase_word_limit in Hout; lra).
    rewrite phase_index_fits; [reflexivity | |];
      unfold phase_word_limit in *; lra.
  - intros Hout. unfold _calculate_moon_phase.
    rewrite phase_lookup_raises by (unfold phase_word_limit in Hout; lra).
    now rewrite (phase_index_unfit p Hout).
  - intros Hlo Hhi. unfold _calculate_moon_phase.
    rewrite phase_index_scale. set (x := (p * (2 # 25))%Q).
    assert (Hi : -9 < py_int x < 8).
    { split.
      - assert (py_int (- x) < 9); [| rewrite py_int_opp in *; lia].
        apply py_int_lt; [lia |]. change (inject_Z 9) with 9%Q. unfold x. lra.
      - apply py_int_lt; [lia |]. change (inject_Z 8) with 8%Q. unfold x. lra. }
    destruct (Z.ltb_spec (py_int x) 0) as [Hneg | Hpos].
    + rewrite (py_index_from_end phases (py_int x) ""%string)
        by (try change (Z.of_nat (List.length phases)) with 8; unfold ssize_max; lia).
      eexists. split; [| reflexivity].
      apply nth_In. change (List.length phases) with 8%nat. lia.
    + rewrite (py_index_in_range phases (py_int x) ""%string)
        by (try change (Z.of_nat (List.length phases)) with 8; unfold ssize_max; lia).
      eexists. split; [| reflexivity].
      apply nth_In. change (List.length phases) with 8%nat. lia.
  - intros Hlo Hhi. rewrite phase_index_scale. set (x := (p * (2 # 25))%Q).
    assert (Hi : -1 < py_int x < 1).
    { split.
      - assert (py_int (- x) < 1); [| rewrite py_int_opp in *; lia].
        apply py_int_lt; [lia |]. change (inject_Z 1) with 1%Q. unfold x. lra.
      - apply py_int_lt; [lia |]. change (inject_Z 1) with 1%Q. unfold x. lra. }
    replace (py_int x) with 0 by lia. reflexivity.
Qed.

(** When the moon is fully lit the snapshot is lost.  On a cache miss, with
    the zone conversion and the moon computed, a phase of 100 percent or
    more makes the call return the error body of the [IndexError] and leave
    the calculator as it was: the body carries 'list index out of range'
    for a phase below [phase_word_limit], and the message of the failed
    conversion from there on. *)
Theorem full_moon_breaks_the_snapshot (self : AstronomyCalculator) (clk : clock)
  (date local : datetime) (latitude longitude : Q) (moon : computed) :
  TTLCache.contains (cache self) (monotonic clk)
    (astronomy_cache_key date latitude longitude) = false ->
  astimezone (israel_tz self) date = Ok local ->
  compute_at Moon {| lat := float_str latitude; lon := float_str longitude;
                     ephem.date := strftime_Ymd_slash local |} = Ok moon ->
  (100 <= phase moon)%Q ->
  ((phase moon < phase_word_limit)%Q ->
   get_astronomical_data self clk date latitude longitude
   = (Ok (error_body "list index out of range"), self))
  /\ ((phase_word_limit <= phase moon)%Q ->
      get_astronomical_data self clk date latitude longitude
      = (Ok (error_body "cannot fit 'int' into an index-sized integer"), self)).
Proof.
  intros Hmiss Hlocal Hmoon Hfull.
  unfold get_astronomical_data. rewrite Hmiss.
  unfold astronomical_data_try. rewrite Hlocal. cbn [bind]. rewrite Hmoon. cbn [bind].
  unfold _calculate_moon_phase.
  rewrite (phase_lookup_raises (phase moon) (or_introl Hfull)).
  split; intros Hword.
  - rewrite phase_index_fits; [reflexivity | | exact Hword].
    unfold phase_word_limit. lra.
  - rewrite phase_index_unfit by now left. reflexivity.
Qed.

End PhaseOutOfRange.

(* ================================================================== *)
(** * The table of zodiac positions *)
(* ================================================================== *)

Section ZodiacPositions.

Context `{Ephem}.

(** What one entry of the table looks like. *)
Lemma zodiac_entry (name : string) (b : Body) (rest : list (string * Body))
  (date : datetime) (tbl : dict) :
  zodiac_positions_loop ((name, b) :: rest) date = Ok tbl ->
  exists st tail,
    compute_on b date = Ok st
    /\ zodiac_positions_loop rest date = Ok tail
    /\ tbl = (name,
              JDict [ ("constellation",
                       JStr (nth (Z.to_nat (py_int (alt st) mod 12)) mazalot ""));
                      ("degree", JFloat (alt st));
                      ("sign",
                       JStr (nth (Z.to_nat (py_int (alt st) mod 12)) mazalot "")) ]%string)
             :: tail.
Proof.
  cbn [zodiac_positions_loop]. intros Htbl.
  destruct (compute_on b date) as [st | e]; [| discriminate Htbl].
  cbn [bind] in Htbl.
  rewrite get_mazal_by_truncation in Htbl. cbn [bind] in Htbl.
  rewrite get_zodiac_sign_is_get_mazal, get_mazal_by_truncation in Htbl.
  cbn [bind] in Htbl.
  destruct (zodiac_positions_loop rest date) as [tail | e]; [| discriminate Htbl].
  cbn [bind] in Htbl. injection Htbl as <-.
  exists st, tail. repeat split.
Qed.

Lemma zodiac_loop_Ok (items : list (string * Body)) (date : datetime) (tbl : dict) :
  zodiac_positions_loop items date = Ok tbl ->
  map fst tbl = map fst items
  /\ Forall (fun entry =>
               exists name q,
                 In name mazalot
                 /\ snd entry = JDict [ ("constellation", JStr name);
                                        ("degree", JFloat q);
                                        ("sign", JStr name) ]%string) tbl
  /\ (forall name b, In (name, b) items -> exists st, compute_on b date = Ok st).
Proof.
  revert tbl. induction items as [| [name b] rest IH]; intros tbl Htbl.
  - injection Htbl as <-. repeat split; [constructor | intros ? ? []].
  - destruct (zodiac_entry name b rest date tbl Htbl) as (st & tail & Hst & Htail & ->).
    destruct (IH tail Htail) as (Hkeys & Hall & Hcomp).
    split; [cbn; now rewrite Hkeys |]. split.
    + constructor; [| exact Hall].
      exists (nth (Z.to_nat (py_int (alt st) mod 12)) mazalot ""%string), (alt st).
      split; [| reflexivity].
      apply nth_In. pose proof (mazal_index_in_range (alt st)). lia.
    + intros name' b' [[= <- <-] | Hin]; [eauto | eauto].
Qed.

Lemma zodiac_loop_total (items : list (string * Body)) (date : datetime) :
  (forall name b, In (name, b) items -> exists st, compute_on b date = Ok st) ->
  exists tbl, zodiac_positions_loop items date = Ok tbl.
Proof.
  induction items as [| [name b] rest IH]; intros Hcomp; [now exists [] |].
  destruct (Hcomp name b (or_introl eq_refl)) as [st Hst].
  destruct IH as [tail Htail]; [intros n' b' Hin; apply (Hcomp n' b'); now right |].
  cbn [zodiac_positions_loop]. rewrite Hst. cbn [bind].
  rewrite get_mazal_by_truncation. cbn [bind].
  rewrite get_zodiac_sign_is_get_mazal, get_mazal_by_truncation. cbn [bind].
  rewrite Htail. cbn [bind]. eauto.
Qed.

Lemma every_body_is_a_planet (b : Body) : exists name, In (name, b) planets.
Proof. destruct b; eexists; cbn; eauto 10. Qed.

(** The zodiac table.  The computation succeeds exactly when the library
    computes every one of the seven bodies; the table then has the seven
    names as keys, in the order sun, moon, mercury, venus, mars, jupiter,
    saturn, and every entry carries one and the same name of the zodiac list
    as its [constellation] and as its [sign]. *)
Theorem zodiac_positions_table (date : datetime) :
  ((exists tbl, _calculate_zodiac_positions date = Ok tbl)
   <-> (forall b, exists st, compute_on b date = Ok st))
  /\ (forall tbl,
        _calculate_zodiac_positions date = Ok tbl ->
        exists d,
          tbl = JDict d
          /\ map fst d
             = [ "sun"; "moon"; "mercury"; "venus"; "mars"; "jupiter"; "saturn" ]%string
          /\ Forall (fun entry =>
                       exists name q,
                         In name mazalot
                         /\ snd entry = JDict [ ("constellation", JStr name);
                                                ("degree", JFloat q);
                                                ("sign", JStr name) ]%string) d).
Proof.
  unfold _calculate_zodiac_positions. split; [split |].
  - intros [tbl Htbl] b.
    destruct (zodiac_positions_loop planets date) as [d | e] eqn:Hd; [| discriminate Htbl].
    destruct (zodiac_loop_Ok planets date d Hd) as (_ & _ & Hcomp).
    destruct (every_body_is_a_planet b) as [name Hin]. exact (Hcomp name b Hin).
  - intros Hall.
    destruct (zodiac_loop_total planets date) as [d Hd]; [intros ? b _; apply Hall |].
    rewrite Hd. cbn [bind]. eauto.
  - intros tbl Htbl.
    destruct (zodiac_positions_loop planets date) as [d | e] eqn:Hd; [| discriminate Htbl].
    injection Htbl as <-.
    destruct (zodiac_loop_Ok planets date d Hd) as (Hkeys & Hall & _).
    exists d. repeat split; [exact Hkeys | exact Hall].
Qed.

End ZodiacPositions.

(* ================================================================== *)
(** * What the calculators and their handlers never do *)
(* ================================================================== *)

Section Containment.

Context `{FloatRepr} `{Pytz} `{HebrewCal} `{Ephem} `{Astral}.

(** The calculators return a body, come what may of the libraries. *)
Lemma get_hebrew_date_returns (self : HebrewDateCalculator) (clk : clock)
  (date : datetime) :
  exists body, fst (get_hebrew_date self clk date) = Ok body.
Proof.
  unfold get_hebrew_date.
  destruct (TTLCache.contains _ _ _) eqn:Hhit.
  - exact (getitem_of_contains _ _ _ Hhit).
  - destruct (hebrew_date_try self date); cbn [fst]; eauto.
Qed.

Lemma get_astronomical_data_returns (self : AstronomyCalculator) (clk : clock)
  (date : datetime) (latitude longitude : Q) :
  exists body, fst (get_astronomical_data self clk date latitude longitude) = Ok body.
Proof.
  unfold get_astronomical_data.
  destruct (TTLCache.contains _ _ _) eqn:Hhit.
  - exact (getitem_of_contains _ _ _ Hhit).
  - destruct (astronomical_data_try self clk date latitude longitude);
      cbn [fst]; eauto.
Qed.

Lemma except_ValueError_of_Ok {S : Type} (block : result json * S) (body : json) :
  fst block = Ok body -> except_ValueError block = block.
Proof. unfold except_ValueError. now intros ->. Qed.

(** The two date handlers of [torah.py] never raise.  Whatever the date
    string and whatever the libraries do, each returns a body; and when the
    string parses, the body and the calculator are exactly what the
    calculator call gives for the parsed date, error bodies included: the
    invalid-format body never stands in for a failure of the computation. *)
Theorem torah_date_handlers_never_raise (hcalc : HebrewDateCalculator)
  (acalc : AstronomyCalculator) (clk : clock) (date : string)
  (latitude longitude : Q) :
  (exists body, fst (torah.get_hebrew_date hcalc clk date) = Ok body)
  /\ (exists body,
        fst (torah.get_astronomy_data acalc clk date latitude longitude) = Ok body)
  /\ (forall date_obj,
        strptime_Ymd date = Ok date_obj ->
        torah.get_hebrew_date hcalc clk date = get_hebrew_date hcalc clk date_obj
        /\ torah.get_astronomy_data acalc clk date latitude longitude
           = get_astronomical_data acalc clk date_obj latitude longitude).
Proof.
  unfold torah.get_hebrew_date, torah.get_astronomy_data.
  destruct (strptime_Ymd date) as [date_obj | e] eqn:Hparse.
  - destruct (get_hebrew_date_returns hcalc clk date_obj) as [hbody Hh].
    destruct (get_astronomical_data_returns acalc clk date_obj latitude longitude)
      as [abody Ha].
    rewrite (except_ValueError_of_Ok _ hbody Hh), (except_ValueError_of_Ok _ abody Ha).
    split; [eauto |]. split; [eauto |].
    intros d [= <-]. split; reflexivity.
  - unfold except_ValueError. cbn [fst snd].
    rewrite (strptime_Raise date e Hparse). cbn [fst].
    split; [eauto |]. split; [eauto |]. intros d Hd. discriminate Hd.
Qed.

(** The Hebrew-date calculator never serves a date.  From a fresh
    calculator on, whatever calls are made and whatever the libraries
    answer, every call returns an error-shaped body and the calculator,
    cache included, stays as it was made: nothing is ever cached. *)
Theorem hebrew_dates_are_never_served (size : nat) (ttl : Z)
  (calls : list (clock * datetime)) :
  let calc := HebrewDateCalculator_init size ttl in
  let served := serve_hebrew_dates calc calls in
  snd served = calc
  /\ List.length (fst served) = List.length calls
  /\ Forall (fun body => returns_error body = true) (fst served).
Proof.
  intros calc. induction calls as [| [clk date] rest IH]; cbn zeta.
  - repeat split. constructor.
  - cbn [serve_hebrew_dates].
    destruct (get_hebrew_date_miss calc clk date eq_refl) as [msg Hmsg].
    rewrite Hmsg.
    destruct (serve_hebrew_dates calc rest) as [bodies calc'] eqn:Hrest.
    cbn [fst snd] in *. destruct IH as (Hcalc & Hlen & Hall).
    split; [exact Hcalc |]. split; [cbn; now rewrite Hlen |].
    constructor; [reflexivity | exact Hall].
Qed.

End Containment.

(* ================================================================== *)
(** * Dates there and back: [strftime] then [strptime] *)
(* ================================================================== *)

Section DateRoundTrip.

Lemma nat_of_digit_char (n : Z) :
  nat_of_ascii (digit_char n) = (48 + Z.to_nat (n mod 10))%nat.
Proof.
  unfold digit_char. apply nat_ascii_embedding.
  pose proof (Z.mod_pos_bound n 10). lia.
Qed.

Lemma is_digit_digit_char (n : Z) : is_digit (digit_char n) = true.
Proof.
  unfold is_digit. rewrite nat_of_digit_char.
  pose proof (Z.mod_pos_bound n 10).
  apply andb_true_intro. split; apply Nat.leb_le; lia.
Qed.

Lemma digit_val_digit_char (n : Z) : digit_val (digit_char n) = n mod 10.
Proof.
  unfold digit_val. rewrite nat_of_digit_char.
  pose proof (Z.mod_pos_bound n 10). lia.
Qed.

Lemma year_of_digits (y : Z) :
  0 <= y <= 9999 ->
  (y / 1000) mod 10 * 1000 + (y / 100) mod 10 * 100 + (y / 10) mod 10 * 10 + y mod 10
  = y.
Proof.
  intros Hy. Z.to_euclidean_division_equations. lia.
Qed.

(** The four digits [strftime] writes for the year are read back as it. *)
Lemma match_Y_pad4 (y : Z) (r : string) :
  0 <= y <= 9999 -> match_Y (pad4 y ++ r) = [(y, r)].
Proof.
  intros Hy. unfold pad4, pad2. cbn [append]. unfold match_Y.
  rewrite !is_digit_digit_char. cbn [andb].
  rewrite !digit_val_digit_char. now rewrite (year_of_digits y Hy).
Qed.

(** What [strftime] writes for a civil date, the expression reads back. *)
Lemma regex_of_strftime (y m d : Z) :
  0 <= y <= 9999 -> 1 <= m <= 12 -> 1 <= d <= 31 ->
  regex_Ymd (strftime_Ymd (Datetime y m d 0 0 0 0 None))
  = Some (y, m, d, EmptyString).
Proof.
  intros Hy Hm Hd. unfold strftime_Ymd, regex_Ymd.
  cbn [PyDatetime.year PyDatetime.month PyDatetime.day].
  rewrite (match_Y_pad4 y _ Hy). cbn [flat_map]. rewrite app_nil_r.
  assert (Hms : m = 1 \/ m = 2 \/ m = 3 \/ m = 4 \/ m = 5 \/ m = 6 \/ m = 7
                \/ m = 8 \/ m = 9 \/ m = 10 \/ m = 11 \/ m = 12) by lia.
  assert (Hds : d = 1 \/ d = 2 \/ d = 3 \/ d = 4 \/ d = 5 \/ d = 6 \/ d = 7
                \/ d = 8 \/ d = 9 \/ d = 10 \/ d = 11 \/ d = 12 \/ d = 13
                \/ d = 14 \/ d = 15 \/ d = 16 \/ d = 17 \/ d = 18 \/ d = 19
                \/ d = 20 \/ d = 21 \/ d = 22 \/ d = 23 \/ d = 24 \/ d = 25
                \/ d = 26 \/ d = 27 \/ d = 28 \/ d = 29 \/ d = 30 \/ d = 31) by lia.
  clear Hm Hd.
  repeat (destruct Hms as [-> | Hms]); try subst m;
    repeat (destruct Hds as [-> | Hds]); try subst d;
    vm_compute; reflexivity.
Qed.

Lemma days_in_month_le_31 (y m : Z) : _days_in_month y m <= 31.
Proof.
  unfold _days_in_month. destruct ((m =? 2) && _is_leap y); [lia |].
  destruct (Z.to_nat m) as [| [| [| [| [| [| [| [| [| [| [| [| [| n]]]]]]]]]]]]];
    cbn; try lia.
  destruct n; cbn; lia.
Qed.

(** A civil date of a four-digit year, written by [strftime], is read back
    by [strptime]. *)
Lemma strptime_strftime (y m d : Z) :
  valid_date y m d = true -> 1000 <= y ->
  strptime_Ymd (strftime_Ymd (Datetime y m d 0 0 0 0 None))
  = Ok (Datetime y m d 0 0 0 0 None).
Proof.
  intros Hv _. destruct (valid_date_bounds y m d Hv) as (Hy & Hm & Hd).
  pose proof (days_in_month_le_31 y m).
  unfold strptime_Ymd. rewrite regex_of_strftime by lia.
  unfold datetime_new. now rewrite Hv.
Qed.

End DateRoundTrip.

(* ================================================================== *)
(** * Dates at the handlers of [prayer.py] *)
(* ================================================================== *)

Section PrayerDates.

Context `{Astral}.

(** The prayer handlers echo the date in canonical form.  For a date string
    that parses to a date of the years 1000 to 9999, the tefillin handler
    returns the fixed window with the date written as four, two and two
    digits; that echoed date parses to the same date, so sending it back to
    either handler gives the response the original string gave; and a body
    of the daily schedule carries the same echoed date.  (An earlier year is
    left out: whether its leading zeros are written, and so whether the
    echoed date parses again, depends on the C library.) *)
Theorem prayer_handlers_echo_canonical_dates (clk : clock) (latitude longitude : Q)
  (date : string) (date_obj : datetime) :
  strptime_Ymd date = Ok date_obj ->
  1000 <= PyDatetime.year date_obj ->
  let echoed := strftime_Ymd date_obj in
  strptime_Ymd echoed = Ok date_obj
  /\ prayer.get_tefillin_schedule clk latitude longitude (Some date)
     = Ok (JDict [ ("date", JStr echoed);
                   ("tefillin_allowed", JBool true);
                   ("start_time", JStr "07:00");
                   ("end_time", JStr "13:00") ]%string)
  /\ prayer.get_tefillin_schedule clk latitude longitude (Some echoed)
     = prayer.get_tefillin_schedule clk latitude longitude (Some date)
  /\ prayer.get_daily_prayer_schedule clk latitude longitude (Some echoed)
     = prayer.get_daily_prayer_schedule clk latitude longitude (Some date)
  /\ (forall body,
        prayer.get_daily_prayer_schedule clk latitude longitude (Some date) = Ok body ->
        body_field body "date" = Some (JStr echoed)).
Proof.
  intros Hparse Hyear echoed.
  assert (Hback : strptime_Ymd echoed = Ok date_obj).
  { destruct (strptime_Ok date date_obj Hparse) as (y & m & d & -> & Hv).
    exact (strptime_strftime y m d Hv Hyear). }
  split; [exact Hback |].
  unfold prayer.get_tefillin_schedule, prayer.get_daily_prayer_schedule.
  rewrite Hback, Hparse. cbn [bind].
  split; [reflexivity |]. split; [reflexivity |]. split; [reflexivity |].
  intros body Hbody. returned Hbody. now injection Hbody as <-.
Qed.

(** The prayer handlers let a parse failure through.  For every date string
    that [strptime] rejects, both handlers raise the [ValueError] of the
    parse instead of returning a body. *)
Theorem prayer_handlers_propagate_parse_failures (clk : clock)
  (latitude longitude : Q) (date : string) (e : exn) :
  strptime_Ymd date = Raise e ->
  is_value_error e = true
  /\ prayer.get_daily_prayer_schedule clk latitude longitude (Some date) = Raise e
  /\ prayer.get_tefillin_schedule clk latitude longitude (Some date) = Raise e.
Proof.
  intros Hbad. split; [exact (strptime_Raise date e Hbad) |].
  split; [exact (daily_schedule_malformed clk latitude longitude date e Hbad) |].
  unfold prayer.get_tefillin_schedule. now rewrite Hbad.
Qed.

End PrayerDates.

(* ================================================================== *)
(** * The Sefaria client and the weekly parsha *)
(* ================================================================== *)

Section Sefaria.

Import sefaria.

Context `{PyRepr} `{Requests}.

Lemma dict_get_set_same (d : dict) (k : string) (v : json) :
  dict_get (dict_set d k v) k = Some v.
Proof.
  induction d as [| [k' v'] d IH]; cbn.
  - now rewrite String.eqb_refl.
  - destruct (String.eqb k' k) eqn:Hk; cbn; rewrite Hk; [reflexivity | exact IH].
Qed.

Lemma dict_get_set_other (d : dict) (k k' : string) (v : json) :
  k <> k' -> dict_get (dict_set d k v) k' = dict_get d k'.
Proof.
  intros Hne. induction d as [| [k0 v0] d IH]; cbn.
  - destruct (String.eqb_spec k k'); [contradiction | reflexivity].
  - destruct (String.eqb_spec k0 k) as [-> | Hk0]; cbn.
    + destruct (String.eqb_spec k k'); [contradiction | reflexivity].
    + destruct (String.eqb k0 k'); [reflexivity | exact IH].
Qed.

(** A request either returns, or raises an exception of the library, or
    raises something else, which [get_text] and [get_parsha] let through. *)
Lemma except_RequestException_fetched (self : SefariaAPI) (path : string)
  (params : dict) :
  raises_only_RequestException ->
  except_RequestException (get_json (base_url self ++ path) (headers self) params)
  = Ok (fetched self path params).
Proof.
  intros Honly. unfold except_RequestException, fetched.
  destruct (get_json _ _ _) as [r | e] eqn:Hget; [reflexivity |].
  now rewrite (Honly _ _ _ _ Hget).
Qed.

Lemma get_text_fetched (self : SefariaAPI) (ref : string) :
  raises_only_RequestException ->
  get_text self ref default_version = Ok (fetched_text self ref).
Proof. intros Honly. exact (except_RequestException_fetched self _ _ Honly). Qed.

Lemma get_parsha_fetched (self : SefariaAPI) (date : datetime) :
  raises_only_RequestException ->
  get_parsha self date = Ok (fetched_calendar self date).
Proof. intros Honly. exact (except_RequestException_fetched self _ _ Honly). Qed.

Lemma texts_loop_fetched (self : SefariaAPI) (sources : list string) (ref : string)
  (texts : dict) :
  raises_only_RequestException ->
  texts_loop self sources ref texts
  = Ok (fold_left
          (fun texts source =>
             dict_set texts (str_lower source)
               (fetched_text self (source ++ "." ++ ref)))
          sources texts).
Proof.
  intros Honly. revert texts.
  induction sources as [| source rest IH]; intros texts; [reflexivity |].
  cbn [texts_loop fold_left]. rewrite (get_text_fetched self _ Honly). cbn [bind].
  apply IH.
Qed.

(** The related texts always come back whole.  As long as the requests
    library raises only its own exceptions, [get_related_texts] returns the
    five-key dictionary, with the four Kabbalistic and the three Chassidic
    sources under their lower-cased names; every leaf is what was fetched
    for its reference, or the error body of the request that failed. *)
Theorem related_texts_come_back_whole (self : SefariaAPI) (ref : string) :
  raises_only_RequestException ->
  get_related_texts self ref
  = Ok (JDict
          [ ("rashi", fetched_text self ("Rashi on " ++ ref));
            ("midrash", fetched_text self ("Midrash Rabbah." ++ ref));
            ("gemara", fetched_text self ("Gemara." ++ ref));
            ("kabbalistic",
             JDict [ ("zohar", fetched_text self ("Zohar." ++ ref));
                     ("tanya", fetched_text self ("Tanya." ++ ref));
                     ("baal shem tov", fetched_text self ("Baal Shem Tov." ++ ref));
                     ("ari", fetched_text self ("Ari." ++ ref)) ]);
            ("chassidic",
             JDict [ ("chabad.org", fetched_text self ("Chabad.org." ++ ref));
                     ("tanya", fetched_text self ("Tanya." ++ ref));
                     ("chassidic insights",
                      fetched_text self ("Chassidic Insights." ++ ref)) ]) ]%string).
Proof.
  intros Honly. unfold get_related_texts, get_kabbalistic_texts, get_chassidic_texts.
  rewrite !(get_text_fetched self _ Honly). cbn [bind].
  rewrite !(texts_loop_fetched self _ ref [] Honly). cbn [bind].
  reflexivity.
Qed.

(** The weekly parsha, as the calendar and the Rashi request come out.  With
    a requests library that raises only its own exceptions, the handler
    raises [AttributeError] when the calendar answer, or the Rashi answer, is
    JSON other than an object; otherwise it returns a body whose
    [parsha_name] is the [parsha] entry of the calendar answer (the empty
    string when there is none), whose [parsha_text] is the [text] entry of
    the Rashi answer (likewise), whose [english_date] is today, and whose
    [error] is the [error] entry of the calendar answer: present exactly when
    the calendar request failed or answered with one. *)
Theorem weekly_parsha_outcome (sefaria_api : SefariaAPI) (clk : clock) :
  raises_only_RequestException ->
  let no_get v :=
    Raise (Exn AttributeError ("'" ++ type_name v ++ "' object has no attribute 'get'")) in
  match fetched_calendar sefaria_api (wall clk) with
  | JDict info =>
      let name := match dict_get info "parsha" with
                  | Some v => v
                  | None => JStr ""
                  end in
      match fetched_text sefaria_api ("Rashi on " ++ ("Torah." ++ py_str name)) with
      | JDict rashi =>
          exists body,
            torah.get_weekly_parsha sefaria_api clk = Ok (JDict body)
            /\ dict_get body "parsha_name" = Some name
            /\ dict_get body "parsha_text"
               = Some (match dict_get rashi "text" with
                       | Some t => t
                       | None => JStr ""
                       end)
            /\ dict_get body "english_date" = Some (JStr (strftime_Ymd (wall clk)))
            /\ Ok (dict_get body "related_texts")
               = (texts <- get_related_texts sefaria_api ("Torah." ++ py_str name) ;;
                  Ok (Some texts))
            /\ dict_get body "error" = dict_get info "error"
      | other => torah.get_weekly_parsha sefaria_api clk = no_get other
      end
  | other => torah.get_weekly_parsha sefaria_api clk = no_get other
  end.
Proof.
  intros Honly no_get. unfold torah.get_weekly_parsha.
  rewrite (get_parsha_fetched sefaria_api (wall clk) Honly). cbn [bind].
  destruct (fetched_calendar sefaria_api (wall clk)) as [| b | z | q | s | l | info];
    try reflexivity.
  cbn [py_get bind].
  set (name := match dict_get info "parsha" with
               | Some v => v
               | None => JStr ""
               end).
  unfold get_related_texts, get_kabbalistic_texts, get_chassidic_texts.
  rewrite !(get_text_fetched sefaria_api _ Honly). cbn [bind].
  rewrite !(texts_loop_fetched sefaria_api _ _ [] Honly). cbn [bind].
  cbn [py_get dict_get String.eqb Ascii.eqb Bool.eqb bind].
  destruct (fetched_text sefaria_api ("Rashi on " ++ ("Torah." ++ py_str name)))
    as [| b | z | q | s | l | rashi]; try reflexivity.
  cbn [py_get bind].
  destruct (dict_get info "error") as [err |]; eexists;
    (split; [reflexivity |]); repeat split.
Qed.

End Sefaria.

(* ================================================================== *)
(** * The snapshot cache over the day and past the TTL *)
(* ================================================================== *)

Section SnapshotCache.

Context `{FloatRepr} `{Pytz} `{Ephem} `{Astral}.

(** The key is made of the civil day and the coordinates, nothing else. *)
Lemma cache_key_of_the_day (date date' : datetime) (latitude longitude : Q) :
  PyDatetime.year date' = PyDatetime.year date ->
  PyDatetime.month date' = PyDatetime.month date ->
  PyDatetime.day date' = PyDatetime.day date ->
  astronomy_cache_key date' latitude longitude
  = astronomy_cache_key date latitude longitude.
Proof.
  intros Hy Hm Hd. unfold astronomy_cache_key, strftime_Ymd. now rewrite Hy, Hm, Hd.
Qed.

Lemma get_put_expired (c : TTLCache.t) (now now' : Z) (k : string) (v : json) :
  TTLCache.ttl c <= now' - now ->
  TTLCache.get (TTLCache.put c now k v) now' k = None.
Proof.
  intros Hage.
  destruct (TTLCache.lookup k (TTLCache.store (TTLCache.put c now k v)))
    as [e |] eqn:He.
  - apply (get_expired _ now' k e He).
    apply lookup_put in He. subst e. exact Hage.
  - unfold TTLCache.get. now rewrite He.
Qed.

Lemma first_snapshot (self : AstronomyCalculator) (clk : clock) (date : datetime)
  (latitude longitude : Q) (body : json) :
  TTLCache.contains (cache self) (monotonic clk)
    (astronomy_cache_key date latitude longitude) = false ->
  astronomical_data_try self clk date latitude longitude = Ok body ->
  get_astronomical_data self clk date latitude longitude
  = (Ok body,
     {| cache := TTLCache.put (cache self) (monotonic clk)
                   (astronomy_cache_key date latitude longitude) body;
        israel_tz := israel_tz self;
        location := location self |}).
Proof. intros Hmiss Htry. unfold get_astronomical_data. now rewrite Hmiss, Htry. Qed.

(** The snapshot is cached by the day.  Once a call has computed and stored
    a snapshot, the next call on the calculator as that call left it, made
    before the TTL has run out for any time of the same civil day and the
    same coordinates, is answered with that stored snapshot, whatever the
    libraries would compute for the new time.  A call for another key in
    between may push the entry out of a full cache; nothing is stated for
    that case. *)
Theorem snapshot_is_cached_per_day (self : AstronomyCalculator)
  (clk clk' : clock) (date date' : datetime) (latitude longitude : Q) (body : json) :
  (0 < TTLCache.maxsize (cache self))%nat ->
  TTLCache.contains (cache self) (monotonic clk)
    (astronomy_cache_key date latitude longitude) = false ->
  astronomical_data_try self clk date latitude longitude = Ok body ->
  monotonic clk' - monotonic clk < TTLCache.ttl (cache self) ->
  PyDatetime.year date' = PyDatetime.year date ->
  PyDatetime.month date' = PyDatetime.month date ->
  PyDatetime.day date' = PyDatetime.day date ->
  let first := get_astronomical_data self clk date latitude longitude in
  get_astronomical_data (snd first) clk' date' latitude longitude
  = (Ok body, snd first).
Proof.
  intros Hroom Hmiss Htry Hage Hy Hm Hd first.
  unfold first. rewrite (first_snapshot self clk date latitude longitude body Hmiss Htry).
  cbn [snd]. unfold get_astronomical_data, TTLCache.contains, TTLCache.getitem.
  cbn [cache]. rewrite (cache_key_of_the_day date date' latitude longitude Hy Hm Hd).
  now rewrite (get_put_same (cache self) (monotonic clk) (monotonic clk') _ body
                 Hroom Hage).
Qed.

(** The snapshot expires with the TTL.  Once the TTL has run out, the stored
    snapshot is no longer served: the same call finds no entry and answers
    with what it computes then, or with the error body of that computation. *)
Theorem snapshot_expires_with_the_ttl (self : AstronomyCalculator)
  (clk clk' : clock) (date : datetime) (latitude longitude : Q) (body : json) :
  TTLCache.contains (cache self) (monotonic clk)
    (astronomy_cache_key date latitude longitude) = false ->
  astronomical_data_try self clk date latitude longitude = Ok body ->
  TTLCache.ttl (cache self) <= monotonic clk' - monotonic clk ->
  let first := get_astronomical_data self clk date latitude longitude in
  TTLCache.contains (cache (snd first)) (monotonic clk')
    (astronomy_cache_key date latitude longitude) = false
  /\ fst (get_astronomical_data (snd first) clk' date latitude longitude)
     = match astronomical_data_try self clk' date latitude longitude with
       | Ok again => Ok again
       | Raise e => Ok (error_body (exn_msg e))
       end.
Proof.
  intros Hmiss Htry Hage first.
  unfold first. rewrite (first_snapshot self clk date latitude longitude body Hmiss Htry).
  cbn [snd cache].
  assert (Hgone : TTLCache.contains
                    (TTLCache.put (cache self) (monotonic clk)
                       (astronomy_cache_key date latitude longitude) body)
                    (monotonic clk') (astronomy_cache_key date latitude longitude)
                  = false).
  { unfold TTLCache.contains.
    now rewrite (get_put_expired (cache self) (monotonic clk) (monotonic clk') _ body Hage). }
  split; [exact Hgone |].
  unfold get_astronomical_data. cbn [cache]. rewrite Hgone.
  change (astronomical_data_try
            {| cache := TTLCache.put (cache self) (monotonic clk)
                          (astronomy_cache_key date latitude longitude) body;
               israel_tz := israel_tz self;
               location := location self |} clk' date latitude longitude)
    with (astronomical_data_try self clk' date latitude longitude).
  now destruct (astronomical_data_try self clk' date latitude longitude).
Qed.

End SnapshotCache.

(* ================================================================== *)
(** * Further theorems on concrete inputs *)
(* ================================================================== *)

Section FurtherExamples.

(** A moon lit at 100 percent has no phase name; at -5 percent it is new. *)
Lemma moon_phase_index_bounds_witness :
  @_calculate_moon_phase Stub.sky Stub.noon 100
  = Raise (Exn IndexError "list index out of range")
  /\ @_calculate_moon_phase Stub.sky Stub.noon (1000000000000000000000 # 1)
     = Raise (Exn IndexError "cannot fit 'int' into an index-sized integer")
  /\ py_index phases (phase_index (-5)) = Ok "New Moon"%string.
Proof.
  destruct (@moon_phase_index_bounds Stub.sky Stub.noon 100) as (Hout & _).
  destruct (@moon_phase_index_bounds Stub.sky Stub.noon (1000000000000000000000 # 1))
    as (_ & Hword & _).
  destruct (@moon_phase_index_bounds Stub.sky Stub.noon (-5)) as (_ & _ & _ & Hnew).
  split; [| split].
  - apply Hout. left. split; [unfold Qle | unfold Qlt]; cbn; lia.
  - apply Hword. left. unfold Qle. cbn. lia.
  - apply Hnew; unfold Qlt; cbn; lia.
Defined.

(** A sky whose moon is fully lit. *)
Lemma full_moon_breaks_the_snapshot_witness :
  let full : Ephem :=
    {| compute_at := fun _ _ => Ok {| alt := 1 # 2; phase := 100 |};
       compute_on := fun _ _ => Ok {| alt := (-1) # 4; phase := 100 |};
       compute_new_moon := Ok (Datetime 2024 5 8 3 22 0 0 None) |} in
  let calc := @AstronomyCalculator_init Stub.almanac 1000 3600 in
  @get_astronomical_data Stub.float_repr Stub.pytz full Stub.almanac calc
    Stub.noon Stub.june_first Stub.jerusalem_lat Stub.jerusalem_lon
  = (Ok (error_body "list index out of range"), calc).
Proof.
  intros full calc.
  apply (@full_moon_breaks_the_snapshot Stub.float_repr Stub.pytz full Stub.almanac
           calc Stub.noon Stub.june_first
           (Datetime 2024 6 1 0 0 0 0 (Some (Tz "Asia/Jerusalem" 10800)))
           Stub.jerusalem_lat Stub.jerusalem_lon
           {| alt := 1 # 2; phase := 100 |}).
  - reflexivity.
  - reflexivity.
  - reflexivity.
  - unfold Qle. cbn. lia.
  - unfold Qlt. cbn. lia.
Defined.

(** Under the stub sky all seven bodies are computed. *)
Lemma zodiac_positions_table_witness :
  exists d,
    @_calculate_zodiac_positions Stub.sky Stub.june_first = Ok (JDict d)
    /\ map fst d
       = [ "sun"; "moon"; "mercury"; "venus"; "mars"; "jupiter"; "saturn" ]%string.
Proof.
  destruct (@zodiac_positions_table Stub.sky Stub.june_first) as [[_ Htotal] Hshape].
  destruct Htotal as [tbl Htbl].
  { intros b. eexists. reflexivity. }
  destruct (Hshape tbl Htbl) as (d & -> & Hkeys & _).
  exists d. split; [exact Htbl | exact Hkeys].
Defined.

(** A date that parses and one that does not, at the handlers of [torah.py]. *)
Lemma torah_date_handlers_never_raise_witness :
  let hcalc := HebrewDateCalculator_init 1000 3600 in
  let acalc := @AstronomyCalculator_init Stub.almanac 1000 3600 in
  (exists body,
     fst (@torah.get_hebrew_date Stub.pytz Stub.calendar hcalc Stub.noon "junk") = Ok body)
  /\ @torah.get_astronomy_data Stub.float_repr Stub.pytz Stub.sky Stub.almanac
       acalc Stub.noon "2024-06-01" Stub.jerusalem_lat Stub.jerusalem_lon
     = @get_astronomical_data Stub.float_repr Stub.pytz Stub.sky Stub.almanac
         acalc Stub.noon Stub.june_first Stub.jerusalem_lat Stub.jerusalem_lon.
Proof.
  intros hcalc acalc.
  destruct (@torah_date_handlers_never_raise Stub.float_repr Stub.pytz Stub.calendar
              Stub.sky Stub.almanac hcalc acalc Stub.noon "junk"
              Stub.jerusalem_lat Stub.jerusalem_lon) as (Hjunk & _).
  destruct (@torah_date_handlers_never_raise Stub.float_repr Stub.pytz Stub.calendar
              Stub.sky Stub.almanac hcalc acalc Stub.noon "2024-06-01"
              Stub.jerusalem_lat Stub.jerusalem_lon) as (_ & _ & Hpass).
  split; [exact Hjunk | exact (proj2 (Hpass Stub.june_first eq_refl))].
Defined.

(** An unpadded date is echoed padded. *)
Lemma prayer_handlers_echo_canonical_dates_witness :
  @prayer.get_tefillin_schedule Stub.noon Stub.jerusalem_lat Stub.jerusalem_lon
    (Some "2024-6-1"%string)
  = Ok (JDict [ ("date", JStr "2024-06-01");
                ("tefillin_allowed", JBool true);
                ("start_time", JStr "07:00");
                ("end_time", JStr "13:00") ]%string)
  /\ @prayer.get_daily_prayer_schedule Stub.almanac Stub.noon Stub.jerusalem_lat
       Stub.jerusalem_lon (Some "2024-06-01"%string)
     = @prayer.get_daily_prayer_schedule Stub.almanac Stub.noon Stub.jerusalem_lat
         Stub.jerusalem_lon (Some "2024-6-1"%string).
Proof.
  destruct (@prayer_handlers_echo_canonical_dates Stub.almanac Stub.noon
              Stub.jerusalem_lat Stub.jerusalem_lon "2024-6-1" Stub.june_first
              eq_refl) as (_ & Htef & _ & Hdaily & _).
  { cbn. lia. }
  split; [exact Htef | exact Hdaily].
Defined.

(** A date in another notation. *)
Lemma prayer_handlers_propagate_parse_failures_witness :
  @prayer.get_tefillin_schedule Stub.noon Stub.jerusalem_lat Stub.jerusalem_lon
    (Some "01/06/2024"%string)
  = Raise (Exn ValueError "time data '01/06/2024' does not match format '%Y-%m-%d'").
Proof.
  destruct (@prayer_handlers_propagate_parse_failures Stub.almanac Stub.noon
              Stub.jerusalem_lat Stub.jerusalem_lon "01/06/2024"
              (Exn ValueError "time data '01/06/2024' does not match format '%Y-%m-%d'")
              eq_refl) as (_ & _ & Htef).
  exact Htef.
Defined.

Lemma offline_raises_only_RequestException :
  @raises_only_RequestException Stub.offline.
Proof. intros url headers params e [= <-]. reflexivity. Qed.

Lemma online_raises_only_RequestException :
  @raises_only_RequestException Stub.online.
Proof.
  intros url headers params e. cbn.
  destruct (String.eqb url _); discriminate.
Qed.

(** With Sefaria out of reach every leaf is the error body. *)
Lemma related_texts_come_back_whole_witness :
  let api := sefaria.SefariaAPI_init None 1000 3600 in
  exists texts,
    @sefaria.get_related_texts Stub.offline api "Torah.Korach" = Ok (JDict texts)
    /\ map fst texts = [ "rashi"; "midrash"; "gemara"; "kabbalistic"; "chassidic" ]%string
    /\ dict_get texts "rashi" = Some (error_body "Connection refused").
Proof.
  intros api. eexists. split.
  - exact (@related_texts_come_back_whole Stub.offline api "Torah.Korach"
             offline_raises_only_RequestException).
  - split; reflexivity.
Defined.

(** The weekly parsha with Sefaria answering: Korach, no [error]. *)
Lemma weekly_parsha_outcome_witness :
  let api := sefaria.SefariaAPI_init None 1000 3600 in
  exists body,
    @torah.get_weekly_parsha Stub.plain_repr Stub.online api Stub.noon = Ok (JDict body)
    /\ dict_get body "parsha_name" = Some (JStr "Korach")
    /\ dict_get body "parsha_text" = Some (JStr "In the beginning")
    /\ dict_get body "error" = None.
Proof.
  intros api.
  destruct (@weekly_parsha_outcome Stub.plain_repr Stub.online api Stub.noon
              online_raises_only_RequestException)
    as (body & Hbody & Hname & Htext & _ & _ & Herr).
  exists body. split; [exact Hbody |]. split; [exact Hname |]. split; [exact Htext |].
  exact Herr.
Defined.

(** Morning and evening of 1 June 2024 share one snapshot. *)
Lemma snapshot_is_cached_per_day_witness :
  let calc := @AstronomyCalculator_init Stub.almanac 1000 3600 in
  let evening := Datetime 2024 6 1 20 30 0 0 None in
  let later := Clock 1900 (Datetime 2024 6 1 20 30 0 0 None) in
  let first := @get_astronomical_data Stub.float_repr Stub.pytz Stub.sky
                 Stub.almanac calc Stub.noon Stub.june_first Stub.jerusalem_lat
                 Stub.jerusalem_lon in
  @get_astronomical_data Stub.float_repr Stub.pytz Stub.sky Stub.almanac
    (snd first) later evening Stub.jerusalem_lat Stub.jerusalem_lon
  = (fst first, snd first).
Proof.
  intros calc evening later first.
  destruct (@astronomical_data_try Stub.float_repr Stub.pytz Stub.sky Stub.almanac
              calc Stub.noon Stub.june_first Stub.jerusalem_lat Stub.jerusalem_lon)
    as [body | e] eqn:Htry; [| discriminate Htry].
  assert (Hfirst : fst first = Ok body).
  { unfold first, get_astronomical_data.
    change (TTLCache.contains _ _ _) with false. cbv iota. now rewrite Htry. }
  rewrite Hfirst.
  apply (@snapshot_is_cached_per_day Stub.float_repr Stub.pytz Stub.sky
           Stub.almanac calc Stub.noon later Stub.june_first evening
           Stub.jerusalem_lat Stub.jerusalem_lon body).
  - cbn. lia.
  - reflexivity.
  - exact Htry.
  - cbn. lia.
  - reflexivity.
  - reflexivity.
  - reflexivity.
Defined.

(** An hour and a second later the entry is gone. *)
Lemma snapshot_expires_with_the_ttl_witness :
  let calc := @AstronomyCalculator_init Stub.almanac 1000 3600 in
  let later := Clock 3701 (Datetime 2024 6 1 13 0 1 0 None) in
  let first := @get_astronomical_data Stub.float_repr Stub.pytz Stub.sky
                 Stub.almanac calc Stub.noon Stub.june_first Stub.jerusalem_lat
                 Stub.jerusalem_lon in
  TTLCache.contains (cache (snd first)) (monotonic later)
    (@astronomy_cache_key Stub.float_repr Stub.june_first Stub.jerusalem_lat
       Stub.jerusalem_lon) = false.
Proof.
  intros calc later first.
  destruct (@astronomical_data_try Stub.float_repr Stub.pytz Stub.sky Stub.almanac
              calc Stub.noon Stub.june_first Stub.jerusalem_lat Stub.jerusalem_lon)
    as [body | e] eqn:Htry; [| discriminate Htry].
  destruct (@snapshot_expires_with_the_ttl Stub.float_repr Stub.pytz Stub.sky
              Stub.almanac calc Stub.noon later Stub.june_first
              Stub.jerusalem_lat Stub.jerusalem_lon body eq_refl Htry)
    as [Hgone _].
  - cbn. lia.
  - exact Hgone.
Defined.

End FurtherExamples.
